(** * scilab_kernel: the Jupyter kernel adapter for Scilab

    A shallow embedding of [scilab_kernel.py] (class [ScilabKernel]) and the
    properties of its request handlers.

    The module is Python 2 code (it writes [str] values to files opened in
    binary mode).  A string is a [Stdlib.Strings.String.string]: one [ascii]
    per byte for a byte string such as [str(e)], one per code point (below
    256) for the text a client sends, which Python 2 hands to the kernel as
    [unicode].  The two differ in what counts as whitespace, so trimming and
    splitting come in two versions.  The kernel object is a record, the handlers are
    state-passing functions, and everything the handlers do to the outside
    world (the Scilab session, the iopub socket, the logger) is appended to a
    trace of events.  What the Scilab session answers is an oracle: a
    function of the trace so far. *)

From Stdlib Require Import String Ascii List ZArith Bool Lia Arith.
Import ListNotations.

Local Open Scope list_scope.
Local Open Scope string_scope.

(** ** Python byte strings *)

Module PyStr.

Definition LF : ascii := "010"%char.
Definition DQUOTE : ascii := "034"%char.
Definition newline : string := String LF EmptyString.

(** [c.isspace()] for a byte in the C locale: space, \t, \n, \v, \f, \r. *)
Definition isspace (c : ascii) : bool :=
  let n := nat_of_ascii c in
  (n =? 32)%nat || ((9 <=? n)%nat && (n <=? 13)%nat).

(** [\w] of the [re] module on byte strings: [[a-zA-Z0-9_]]. *)
Definition isword (c : ascii) : bool :=
  let n := nat_of_ascii c in
  ((48 <=? n)%nat && (n <=? 57)%nat)
  || ((65 <=? n)%nat && (n <=? 90)%nat)
  || ((97 <=? n)%nat && (n <=? 122)%nat)
  || (n =? 95)%nat.

Definition nonempty (s : string) : bool :=
  match s with EmptyString => false | String _ _ => true end.

Fixpoint all_chars (p : ascii -> bool) (s : string) : bool :=
  match s with
  | EmptyString => true
  | String c s' => p c && all_chars p s'
  end.

(** [s.lstrip()] *)
Fixpoint lstrip (s : string) : string :=
  match s with
  | EmptyString => EmptyString
  | String c s' => if isspace c then lstrip s' else s
  end.

(** [s.rstrip()] *)
Fixpoint rstrip (s : string) : string :=
  match s with
  | EmptyString => EmptyString
  | String c s' =>
      match rstrip s' with
      | EmptyString => if isspace c then EmptyString else String c EmptyString
      | r => String c r
      end
  end.

(** [s.strip()] *)
Definition strip (s : string) : string := lstrip (rstrip s).

(** [c.isspace()] for a code point below 256 of a [unicode] text: the six
    above, the separators \x1c to \x1f, \x85 and \xa0. *)
Definition text_isspace (c : ascii) : bool :=
  let n := nat_of_ascii c in
  isspace c || ((28 <=? n)%nat && (n <=? 31)%nat) || (n =? 133)%nat || (n =? 160)%nat.

(** [s.lstrip()], [s.rstrip()] and [s.strip()] on text *)
Fixpoint text_lstrip (s : string) : string :=
  match s with
  | EmptyString => EmptyString
  | String c s' => if text_isspace c then text_lstrip s' else s
  end.

Fixpoint text_rstrip (s : string) : string :=
  match s with
  | EmptyString => EmptyString
  | String c s' =>
      match text_rstrip s' with
      | EmptyString => if text_isspace c then EmptyString else String c EmptyString
      | r => String c r
      end
  end.

Definition text_strip (s : string) : string := text_lstrip (text_rstrip s).

(** [s.startswith(p)] *)
Fixpoint startswith (p s : string) : bool :=
  match p with
  | EmptyString => true
  | String a p' =>
      match s with
      | EmptyString => false
      | String b s' => Ascii.eqb a b && startswith p' s'
      end
  end.

(** [s[n:]] for [0 <= n] *)
Fixpoint drop (n : nat) (s : string) : string :=
  match n with
  | O => s
  | S n' => match s with EmptyString => EmptyString | String _ s' => drop n' s' end
  end.

(** [s[:n]] for [0 <= n] *)
Fixpoint take (n : nat) (s : string) : string :=
  match n with
  | O => EmptyString
  | S n' =>
      match s with
      | EmptyString => EmptyString
      | String c s' => String c (take n' s')
      end
  end.

(** [s.endswith(p)] *)
Definition endswith (p s : string) : bool :=
  (String.length p <=? String.length s)%nat
  && String.eqb (drop (String.length s - String.length p) s) p.

(** [s.find(sub)], [None] for -1 *)
Fixpoint find (sub s : string) : option nat :=
  if startswith sub s then Some O
  else match s with
       | EmptyString => None
       | String _ s' => option_map S (find sub s')
       end.

(** [sub in s] *)
Definition contains (sub s : string) : bool :=
  match find sub s with Some _ => true | None => false end.

(** [s.replace(old, new)] for a one-character [old], the only use the kernel
    makes of it. *)
Fixpoint replace (old : ascii) (new : string) (s : string) : string :=
  match s with
  | EmptyString => EmptyString
  | String c s' =>
      if Ascii.eqb c old then new ++ replace old new s'
      else String c (replace old new s')
  end.

(** [s.split()]: the maximal runs of non-whitespace bytes. [tok] is the run
    being read. *)
Fixpoint split_from (tok s : string) : list string :=
  match s with
  | EmptyString => if nonempty tok then [tok] else []
  | String c s' =>
      if isspace c then
        if nonempty tok then tok :: split_from EmptyString s'
        else split_from EmptyString s'
      else split_from (tok ++ String c EmptyString) s'
  end.

Definition split (s : string) : list string := split_from EmptyString s.

(** [s.split()] on text *)
Fixpoint text_split_from (tok s : string) : list string :=
  match s with
  | EmptyString => if nonempty tok then [tok] else []
  | String c s' =>
      if text_isspace c then
        if nonempty tok then tok :: text_split_from EmptyString s'
        else text_split_from EmptyString s'
      else text_split_from (tok ++ String c EmptyString) s'
  end.

Definition text_split (s : string) : list string := text_split_from EmptyString s.

(** [sep.join(l)] *)
Definition join (sep : string) (l : list string) : string := String.concat sep l.

(** [fid.readlines()] on the contents of a file opened with ['rb']: the
    lines, each with its terminating \n when it has one. *)
Fixpoint readlines_from (cur s : string) : list string :=
  match s with
  | EmptyString => if nonempty cur then [cur] else []
  | String c s' =>
      if Ascii.eqb c LF then (cur ++ String c EmptyString) :: readlines_from EmptyString s'
      else readlines_from (cur ++ String c EmptyString) s'
  end.

Definition readlines (s : string) : list string := readlines_from EmptyString s.

(** [s[-1]], [None] for the IndexError on the empty string *)
Fixpoint last_char (s : string) : option ascii :=
  match s with
  | EmptyString => None
  | String c EmptyString => Some c
  | String _ s' => last_char s'
  end.

(** The bound a slice computes from an index: negative indices count from
    the end, and the result is clipped to [0..len]. *)
Definition clip (len i : Z) : Z :=
  if (i <? 0)%Z then Z.max 0 (len + i) else Z.min i len.

(** [s[:stop]] *)
Definition slice_to (s : string) (stop : Z) : string :=
  take (Z.to_nat (clip (Z.of_nat (String.length s)) stop)) s.

End PyStr.

(** Python list slices, with the same clipping. *)
Module PyList.

Section Slices.
Context {A : Type}.

(** [l[:stop]] *)
Definition slice_to (l : list A) (stop : Z) : list A :=
  firstn (Z.to_nat (PyStr.clip (Z.of_nat (List.length l)) stop)) l.

(** [l[start:]] *)
Definition slice_from (l : list A) (start : Z) : list A :=
  skipn (Z.to_nat (PyStr.clip (Z.of_nat (List.length l)) start)) l.

(** [l[-1]] on a list known to be non-empty; [d] is never returned there. *)
Definition last_item (l : list A) (d : A) : A := List.last l d.

End Slices.

End PyList.

(** ** The [re.sub] call of [do_execute] *)

Module Underscore.
Import PyStr.

Definition last_kernel_value : string := "last_kernel_value".

Definition is_us (c : ascii) : bool := Ascii.eqb c "_"%char.
Definition nonword (c : ascii) : bool := negb (isword c).

(** [fill_value]: the matched text with its [_] replaced. *)
Definition fill_value (matched : string) : string :=
  replace "_"%char last_kernel_value matched.

(** [re.sub('\W_\W|\W_\Z|\A_\W|\A_\Z', fill_value, code)], scanning [s] from
    the left.  [at_start] says that [s] is the whole string, which is where
    [\A] matches; [\Z] matches where nothing is left.  At each position the
    alternatives are tried in the order of the pattern; a match is replaced
    and the scan resumes after it, otherwise one byte is copied. *)
Fixpoint sub_from (at_start : bool) (s : string) : string :=
  match s with
  | EmptyString => EmptyString
  | String c1 s1 =>
      match s1 with
      | EmptyString =>
          if at_start && is_us c1
          then fill_value (String c1 EmptyString)                        (* \A_\Z *)
          else String c1 EmptyString
      | String c2 s2 =>
          match s2 with
          | EmptyString =>
              if nonword c1 && is_us c2
              then fill_value (String c1 (String c2 EmptyString))        (* \W_\Z *)
              else if at_start && is_us c1 && nonword c2
              then fill_value (String c1 (String c2 EmptyString))
                   ++ sub_from false s2                                  (* \A_\W *)
              else String c1 (sub_from false s1)
          | String c3 s3 =>
              if nonword c1 && is_us c2 && nonword c3
              then fill_value (String c1 (String c2 (String c3 EmptyString)))
                   ++ sub_from false s3                                  (* \W_\W *)
              else if at_start && is_us c1 && nonword c2
              then fill_value (String c1 (String c2 EmptyString))
                   ++ sub_from false s2                                  (* \A_\W *)
              else String c1 (sub_from false s1)
          end
      end
  end.

Definition re_sub (code : string) : string := sub_from true code.

Definition starts_with_word (s : string) : bool :=
  match s with String d _ => isword d | EmptyString => false end.

Definition starts_with_us (s : string) : bool :=
  match s with String d _ => is_us d | EmptyString => false end.

(** The word-boundary rule, as a second definition to compare [re_sub]
    with: an [_] is replaced when neither the byte before it nor the byte
    after it, where there is one, is a word byte.  [prev_word] says whether
    the byte before [s] is a word byte. *)
Fixpoint word_boundary_from (prev_word : bool) (s : string) : string :=
  match s with
  | EmptyString => EmptyString
  | String c rest =>
      if is_us c && negb prev_word && negb (starts_with_word rest)
      then last_kernel_value ++ word_boundary_from true rest
      else String c (word_boundary_from (isword c) rest)
  end.

Definition word_boundary_sub (code : string) : string :=
  word_boundary_from false code.

(** Some [_] of [s] stands two bytes after another [_], with a non-word byte
    between them. *)
Fixpoint crowded (s : string) : bool :=
  match s with
  | EmptyString => false
  | String c1 s1 =>
      (is_us c1
       && match s1 with
          | String c2 s2 => nonword c2 && starts_with_us s2
          | EmptyString => false
          end)
      || crowded s1
  end.

End Underscore.

(** ** The kernel object and its environment *)

Module Kernel.
Import PyStr.

(** What [scilab_wrapper._eval] hands back: [None], a string, or any other
    object (a number, an array), of which the kernel only uses [str(v)] and
    its truth value. *)
Inductive pyval : Type :=
| PyNone
| PyText (s : string)
| PyObject (text : string) (truth : bool).

(** [str(v)] *)
Definition py_str (v : pyval) : string :=
  match v with
  | PyNone => "None"
  | PyText s => s
  | PyObject text _ => text
  end.

(** [bool(v)] *)
Definition py_truth (v : pyval) : bool :=
  match v with
  | PyNone => false
  | PyText s => nonempty s
  | PyObject _ b => b
  end.

(** How a call of [scilab_wrapper._eval] ends: with a value, or with one of
    the three exception classes [do_execute] tells apart.  [Scilab2PyError]
    carries [str(e)]. *)
Inductive eval_outcome : Type :=
| Returns (v : pyval)
| KeyboardInterrupt
| Scilab2PyError (msg : string)
| OtherException.

Inductive sigint_handler : Type := SIG_DFL | SavedHandler.

(** The calls the kernel makes on its collaborators, in the order made. *)
Inductive event : Type :=
| EvSignal (h : sigint_handler)            (* signal.signal(SIGINT, h) *)
| EvRestart                                (* scilab_wrapper.restart() *)
| EvClose                                  (* scilab_wrapper.close() *)
| EvPut (name : string) (v : pyval)        (* scilab_wrapper.put(name, v) *)
| EvEval (cmds : list string)              (* scilab_wrapper._eval(cmds) *)
| EvExists (name : string)                 (* scilab_wrapper.exists(name) *)
| EvHelp (name : string)                   (* scilab_wrapper.help(name) *)
| EvSendSigint                             (* _session.proc.send_signal(SIGINT) *)
| EvStream (name data : string)            (* send_response(iopub_socket, 'stream', ..) *)
| EvLog (msg : string)                     (* self.log.debug / info / warn *)
| EvLogLines (lines : list string).        (* self.log.debug(history) *)

(** The Scilab session as the kernel sees it: what its calls answer, after
    the calls made so far. *)
Record engine : Type := mkEngine {
  eng_eval : list event -> list string -> eval_outcome;
  eng_exists : list event -> string -> Z;
  eng_dir : list event -> list string      (* dir(scilab_wrapper) *)
}.

(** [os.path.split] of posixpath: the text up to and including the last
    slash, and the text after it. *)
Fixpoint path_cut (p : string) : string * string :=
  match p with
  | EmptyString => (EmptyString, EmptyString)
  | String c p' =>
      let '(head, tail) := path_cut p' in
      if nonempty head then (String c head, tail)
      else if Ascii.eqb c "/"%char then (String c EmptyString, tail)
      else (EmptyString, String c tail)
  end.

(** [head.rstrip('/')] *)
Fixpoint rstrip_slash (s : string) : string :=
  match s with
  | EmptyString => EmptyString
  | String c s' =>
      match rstrip_slash s' with
      | EmptyString => if Ascii.eqb c "/"%char then EmptyString else String c EmptyString
      | r => String c r
      end
  end.

(** [os.path.dirname]: a head made of slashes only is kept as it is. *)
Definition dirname (p : string) : string :=
  let head := fst (path_cut p) in
  if nonempty head && negb (all_chars (fun c => Ascii.eqb c "/"%char) head)
  then rstrip_slash head else head.

(** [os.path.basename] *)
Definition basename (p : string) : string := snd (path_cut p).

(** [item in matches] *)
Definition mem (item : string) (l : list string) : bool :=
  existsb (String.eqb item) l.

(** The files and directories the kernel can see.  The empty path stands
    for the current directory when a file in it is opened. *)
Record filesystem : Type := mkFs {
  files : string -> option string;          (* contents of a regular file *)
  dirs : string -> option (list string)     (* os.listdir of a directory *)
}.

Definition path_exists (f : filesystem) (p : string) : bool :=
  match files f p, dirs f p with
  | None, None => false
  | _, _ => true
  end.

(** The file system with [data] in the file [p]; a file that is new shows
    in the listing of its directory. *)
Definition put_file (p data : string) (f : filesystem) : filesystem :=
  {| files := fun q => if String.eqb q p then Some data else files f q;
     dirs := fun d =>
       if String.eqb d (dirname p) then
         match dirs f d with
         | Some entries =>
             Some (if mem (basename p) entries then entries
                   else (entries ++ [basename p])%list)
         | None => None
         end
       else dirs f d |}.

(** [open(p, 'wb').write(data)]; [None] is the IOError of [open] when [p]
    is a directory or the directory it lies in does not exist.  Access
    rights are not modelled: a directory that exists can be written to. *)
Definition write_file (p data : string) (f : filesystem) : option filesystem :=
  match dirs f p, dirs f (dirname p) with
  | None, Some _ => Some (put_file p data f)
  | _, _ => None
  end.

(** The fields of a [ScilabKernel] instance, with the environment it acts
    on.  [execution_count] belongs to the base class, which alone updates it. *)
Record kernel : Type := mkKernel {
  execution_count : Z;
  hist_file : option string;
  max_hist_cache : Z;
  hist_cache : list string;
  fs : filesystem;
  trace : list event
}.

Definition emit (e : event) (k : kernel) : kernel :=
  {| execution_count := execution_count k;
     hist_file := hist_file k;
     max_hist_cache := max_hist_cache k;
     hist_cache := hist_cache k;
     fs := fs k;
     trace := (trace k ++ [e])%list |}.

Definition set_hist_cache (h : list string) (k : kernel) : kernel :=
  {| execution_count := execution_count k;
     hist_file := hist_file k;
     max_hist_cache := max_hist_cache k;
     hist_cache := h;
     fs := fs k;
     trace := trace k |}.

Definition set_fs (f : filesystem) (k : kernel) : kernel :=
  {| execution_count := execution_count k;
     hist_file := hist_file k;
     max_hist_cache := max_hist_cache k;
     hist_cache := hist_cache k;
     fs := f;
     trace := trace k |}.

(** [self.hist_cache.append(code)] *)
Definition record (code : string) (k : kernel) : kernel :=
  set_hist_cache (hist_cache k ++ [code])%list k.

(** [send_response(self.iopub_socket, 'stream', {'name': 'stdout', 'data': d})] *)
Definition send_stdout (d : string) (k : kernel) : kernel :=
  emit (EvStream "stdout" d) k.

(** The truth value of [self.hist_file]: a non-empty path. *)
Definition hist_file_set (k : kernel) : option string :=
  match hist_file k with
  | Some p => if nonempty p then Some p else None
  | None => None
  end.

(** The reply dictionaries of [do_execute].  The ok reply always has
    ['payload': []] and ['user_expressions': {}]; the abort reply has the two
    keys shown. *)
Inductive execute_reply : Type :=
| ReplyOk (count : Z)
| ReplyAbort (count : Z)
| ReplyError (count : Z) (ename evalue : string) (traceback : list string).

Inductive status : Type := StatusOk | StatusAbort | StatusError.

Definition reply_status (r : execute_reply) : status :=
  match r with
  | ReplyOk _ => StatusOk
  | ReplyAbort _ => StatusAbort
  | ReplyError _ _ _ _ => StatusError
  end.

Definition reply_count (r : execute_reply) : Z :=
  match r with
  | ReplyOk n | ReplyAbort n | ReplyError n _ _ _ => n
  end.

(** [{'status': 'ok', 'restart': restart}] *)
Record shutdown_reply : Type := mkShutdownReply { restart_flag : bool }.

(** The reply of [do_complete]; ['metadata': {}] and ['status': 'ok'] are
    constant. *)
Record complete_reply : Type := mkCompleteReply {
  matches : list string;
  cursor_start : Z;
  cursor_end : Z
}.

(** The exceptions a handler can leave with. *)
Inductive exn : Type :=
| IndexError
| AttributeError
| OSError
| IOError
| Raised (o : eval_outcome).

Inductive result (A : Type) : Type :=
| Ok (a : A)
| Raise (e : exn).
Arguments Ok {A} a.
Arguments Raise {A} e.

Section Handlers.

Variable E : engine.

(** [do_shutdown].  When the history file cannot be opened the IOError
    leaves the handler, after the session was restarted or closed. *)
Definition do_shutdown (restart : bool) (k : kernel)
  : result shutdown_reply * kernel :=
  let k := emit (EvLog "**Shutting down") k in
  let k := if restart then emit EvRestart k else emit EvClose k in
  match hist_file_set k with
  | Some p =>
      match write_file p
              (join newline (PyList.slice_from (hist_cache k) (- max_hist_cache k)))
              (fs k) with
      | Some f => (Ok (mkShutdownReply restart), set_fs f k)
      | None => (Raise IOError, k)
      end
  | None => (Ok (mkShutdownReply restart), k)
  end.

(** [_get_help] *)
Definition _get_help (code : string) (k : kernel) : kernel :=
  let code := replace "?"%char EmptyString code in
  let tokens := text_split (replace ";"%char " " code) in
  match tokens with
  | [] => k
  | _ :: _ =>
      let token := PyList.last_item tokens EmptyString in
      let found := eng_exists E (trace k) token in
      let k := emit (EvExists token) k in
      if negb (found =? 0)%Z then
        let k := emit (EvHelp token) k in
        let output := "Calling Help Browser for `" ++ token ++ "`" in
        send_stdout output k
      else k
  end.

(** [_handle_output] *)
Definition _handle_output (output : pyval) (silent : bool) (k : kernel)
  : string * kernel :=
  let '(output, k) :=
    match output with
    | PyNone => (EmptyString, k)
    | _ => (py_str output, emit (EvPut "last_kernel_value" output) k)
    end in
  let k := if negb silent then send_stdout output k else k in
  (output, k).

Definition parse_marker : string := "parse error:".
Definition returned_marker : string := "Scilab returned:".
Definition syntax_marker : string := "Syntax Error".

(** The message [_handle_error] keeps in [err] before it replies. *)
Definition categorize (err : string) : string :=
  if contains parse_marker err then "Parse Error"
  else if contains returned_marker err then
    match find returned_marker err with
    | Some i => lstrip (drop (String.length returned_marker) (drop i err))
    | None => err     (* err.index cannot fail under the test above *)
    end
  else if contains syntax_marker err then "Syntax Error"
  else err.

(** [_handle_error] *)
Definition _handle_error (err : string) (k : kernel) : execute_reply * kernel :=
  let err := categorize err in
  let k := send_stdout (strip err) k in
  (ReplyError (execution_count k) EmptyString err [], k).

Definition interrupted_text : string := "Scilab Session Interrupted".

(** [do_execute].  [user_expressions] and [allow_stdin] are never read.  An
    exception that leaves [do_shutdown] leaves [do_execute] as well. *)
Definition do_execute (code : string) (silent store_history : bool) (k : kernel)
  : result execute_reply * kernel :=
  let code := text_strip code in
  let abort_msg := ReplyAbort (execution_count k) in
  let k :=
    if nonempty code && store_history
    then record code k
    else k in
  if negb (nonempty code) || String.eqb code "keyboard" || startswith "keyboard(" code
  then (Ok (ReplyOk (execution_count k)), k)
  else if String.eqb code "exit" || startswith "exit(" code
          || String.eqb code "quit" || startswith "quit(" code
  then match do_shutdown false k with
       | (Ok _, k) => (Ok abort_msg, k)
       | (Raise e, k) => (Raise e, k)
       end
  else if String.eqb code "restart" || startswith "restart(" code
  then (Ok abort_msg, emit EvRestart k)
  else if endswith "?" code || startswith "?" code
  then (Ok abort_msg, _get_help code k)
  else
    let code := if contains "_" code then Underscore.re_sub code else code in
    let outcome := eng_eval E (trace k) [code] in
    let k := emit (EvEval [code]) k in
    match outcome with
    | KeyboardInterrupt =>                      (* interrupted = True *)
        (Ok abort_msg, emit EvSendSigint k)
    | Scilab2PyError msg =>
        let '(reply, k) := _handle_error msg k in (Ok reply, k)
    | OtherException =>                         (* output is set and dropped *)
        (Ok (ReplyOk (execution_count k)), emit EvRestart k)
    | Returns v =>
        let '(output, k) := _handle_output v silent k in
        if String.eqb output interrupted_text
        then (Ok abort_msg, k)
        else (Ok (ReplyOk (execution_count k)), k)
    end.

(** The loop over [dir(self.scilab_wrapper)] that ends [do_complete]. *)
Definition add_attributes (token : string) (attrs matches : list string)
  : list string :=
  fold_left
    (fun matches item =>
       if startswith token item && negb (mem item matches)
       then (matches ++ [item])%list else matches)
    attrs matches.

(** [do_complete] *)
Definition do_complete (code : string) (cursor_pos : Z) (k : kernel)
  : result complete_reply * kernel :=
  let code := slice_to code cursor_pos in
  let default := mkCompleteReply [] 0 cursor_pos in
  match last_char code with
  | None => (Raise IndexError, k)                     (* code[-1] *)
  | Some c =>
      if Ascii.eqb c " "%char then (Ok default, k)
      else
        let tokens := text_split (replace ";"%char " " code) in
        match tokens with
        | [] => (Ok default, k)
        | _ :: _ =>
            let token := PyList.last_item tokens EmptyString in
            if contains "/" token then
              let dname := dirname token in
              let rest := basename token in
              if path_exists (fs k) dname then
                match dirs (fs k) dname with
                | Some entries =>
                    let found := filter (startswith rest) entries in
                    let start := (cursor_pos - Z.of_nat (String.length rest))%Z in
                    (Ok (mkCompleteReply found start cursor_pos), k)
                | None => (Raise OSError, k)           (* os.listdir of a file *)
                end
              else (Ok default, k)
            else
              let start := (cursor_pos - Z.of_nat (String.length token))%Z in
              let cmd := "completion(" ++ String DQUOTE token
                         ++ String DQUOTE ")" in
              let outcome := eng_eval E (trace k) [cmd] in
              let k := emit (EvEval [cmd]) k in
              match outcome with
              | Returns output =>
                  if negb (py_truth output) then (Ok default, k)
                  else
                    match output with
                    | PyText text =>
                        let found := split (replace "!"%char " " text) in
                        let found := add_attributes token (eng_dir E (trace k)) found in
                        (Ok (mkCompleteReply found start cursor_pos), k)
                    | _ => (Raise AttributeError, k)   (* output.replace *)
                    end
              | o => (Raise (Raised o), k)
              end
        end
  end.

(** [{'status': 'aborted', 'data': {}, 'metadata': {}}] *)
Inductive inspect_reply : Type := InspectAborted.

(** [do_inspect] *)
Definition do_inspect (code : string) (cursor_pos detail_level : Z) (k : kernel)
  : inspect_reply * kernel :=
  (InspectAborted, k).

(** An entry of the history reply: [(None, None, h)]. *)
Definition history_item : Type := (option Z * option Z * string)%type.

(** Lines 195 to 204 of [do_history]: the file is read and becomes the
    history.  [open(p, 'rb')] fails on a directory. *)
Definition read_history (p : string) (k : kernel)
  : result (list history_item) * kernel :=
  match files (fs k) p with
  | None => (Raise IOError, k)
  | Some data =>
      let history := readlines data in
      let history := PyList.slice_to history (max_hist_cache k) in
      let k := set_hist_cache history k in
      let k := emit (EvLog "**HISTORY:") k in
      let k := emit (EvLogLines history) k in
      (Ok (map (fun h => (None, None, h)) history), k)
  end.

(** [do_history].  None of its arguments is read.  A file that is missing is
    created first; when it cannot be, the IOError leaves the handler. *)
Definition do_history (k : kernel) : result (list history_item) * kernel :=
  match hist_file_set k with
  | None => (Ok [], k)
  | Some p =>
      if negb (path_exists (fs k) p) then
        match write_file p EmptyString (fs k) with
        | Some f => read_history p (set_fs f k)
        | None => (Raise IOError, k)
        end
      else read_history p k
  end.

End Handlers.

(** [os.path.join(a, b)] for a relative [b] *)
Definition path_join (a b : string) : string :=
  if negb (nonempty a) || endswith "/" a then a ++ b else a ++ "/" ++ b.

(** [__init__].  [profile] is what [locate_profile()] returns, [None] when it
    raises IOError; [f] is the file system the kernel starts on. *)
Definition __init__ (profile : option string) (f : filesystem) : kernel :=
  let startup :=
    [EvSignal SIG_DFL; EvRestart; EvPut "last_kernel_value" (PyText EmptyString);
     EvSignal SavedHandler] in
  let warning :=
    match profile with
    | Some _ => []
    | None => [EvLog "No default profile found, history unavailable"]
    end in
  {| execution_count := 0;
     hist_file := option_map (fun dir => path_join dir "scilab_kernel.hist") profile;
     max_hist_cache := 1000;
     hist_cache := [];
     fs := f;
     trace := (startup ++ warning)%list |}.

End Kernel.

(** ** The vocabulary of the properties *)

Module Scenario.
Import PyStr Kernel.

(** The inputs [do_execute] answers without looking further: the breakpoint
    keyword, and the exit and quit keywords, bare or opening a call. *)
Definition keyboard_form (c : string) : Prop :=
  c = "keyboard" \/ startswith "keyboard(" c = true.

Definition exit_form (c : string) : Prop :=
  c = "exit" \/ startswith "exit(" c = true
  \/ c = "quit" \/ startswith "quit(" c = true.

(** [sub] occurs in [s]. *)
Definition occurs (sub s : string) : Prop :=
  exists pre post, s = pre ++ sub ++ post.

(** [s] is [pre ++ sub ++ post], and no occurrence of [sub] starts earlier. *)
Definition first_occurrence (sub s pre post : string) : Prop :=
  s = pre ++ sub ++ post
  /\ forall pre' post', s = pre' ++ sub ++ post' ->
                        String.length pre <= String.length pre'.

(** [msg] is the short message for the raw error text [err]: the four cases,
    each under the condition that the earlier ones do not apply. *)
Definition categorized (err msg : string) : Prop :=
  (occurs parse_marker err /\ msg = "Parse Error")
  \/ (~ occurs parse_marker err
      /\ exists pre post,
           first_occurrence returned_marker err pre post /\ msg = lstrip post)
  \/ (~ occurs parse_marker err /\ ~ occurs returned_marker err
      /\ occurs syntax_marker err /\ msg = "Syntax Error")
  \/ (~ occurs parse_marker err /\ ~ occurs returned_marker err
      /\ ~ occurs syntax_marker err /\ msg = err).

(** The trimmed inputs that [do_execute] hands to Scilab: none of the
    keyword forms and no help query. *)
Definition evaluated (c : string) : bool :=
  negb (negb (nonempty c) || String.eqb c "keyboard" || startswith "keyboard(" c)
  && negb (String.eqb c "exit" || startswith "exit(" c
           || String.eqb c "quit" || startswith "quit(" c)
  && negb (String.eqb c "restart" || startswith "restart(" c)
  && negb (endswith "?" c || startswith "?" c).

(** The command submitted for the trimmed input [c]. *)
Definition submitted (c : string) : string :=
  if contains "_" c then Underscore.re_sub c else c.

(** What [_handle_output] does with a value: the text it returns and the
    [put] it makes. *)
Definition output_text (v : pyval) : string :=
  match v with PyNone => EmptyString | _ => py_str v end.

Definition output_puts (v : pyval) : list event :=
  match v with PyNone => [] | _ => [EvPut "last_kernel_value" v] end.

Definition is_stream (e : event) : bool :=
  match e with EvStream _ _ => true | _ => false end.

(** No byte of [s] is a newline. *)
Definition one_line (s : string) : Prop :=
  all_chars (fun c => negb (Ascii.eqb c LF)) s = true.

(** A handler call that touches neither the kernel's own fields nor, in
    particular, the history. *)
Definition keeps_fields (k k' : kernel) : Prop :=
  execution_count k' = execution_count k
  /\ hist_file k' = hist_file k
  /\ max_hist_cache k' = max_hist_cache k
  /\ hist_cache k' = hist_cache k.

(** A session: [do_execute(code, silent, store_history=True)] for each
    [(code, silent)] in turn. *)
Fixpoint run_executes (E : engine) (calls : list (string * bool)) (k : kernel)
  : kernel :=
  match calls with
  | [] => k
  | (code, silent) :: calls' =>
      run_executes E calls' (snd (do_execute E code silent true k))
  end.

(** The last [n] entries of [l], all of [l] when it has fewer. *)
Definition last_entries {A : Type} (n : nat) (l : list A) : list A :=
  skipn (List.length l - n) l.

(** A line without its terminator. *)
Fixpoint chomp (line : string) : string :=
  match line with
  | EmptyString => EmptyString
  | String c EmptyString => if Ascii.eqb c LF then EmptyString else line
  | String c rest => String c (chomp rest)
  end.

(** The byte [code[:cursor_pos][-1]] that [do_complete] looks at. *)
Definition char_before_cursor (code : string) (cursor_pos : Z) : option ascii :=
  last_char (slice_to code cursor_pos).

(** Sessions to run the handlers on: a Scilab that echoes the command it is
    given, and one that rejects every command with [msg]. *)
Definition echo_engine : engine :=
  {| eng_eval := fun _ cmds => Returns (PyText (hd EmptyString cmds));
     eng_exists := fun _ _ => 1%Z;
     eng_dir := fun _ => ["eval"; "exists"; "put"] |}.

Definition rejecting_engine (msg : string) : engine :=
  {| eng_eval := fun _ _ => Scilab2PyError msg;
     eng_exists := fun _ _ => 0%Z;
     eng_dir := fun _ => [] |}.

Definition empty_fs : filesystem :=
  {| files := fun _ => None; dirs := fun _ => None |}.

Definition profile_dir : string := "/home/user/.ipython/profile_default".

(** A file system with the profile directory, empty, and nothing else. *)
Definition profile_fs : filesystem :=
  {| files := fun _ => None;
     dirs := fun d => if String.eqb d profile_dir then Some [] else None |}.

(** The kernel as [__init__] leaves it, with a profile and without one. *)
Definition fresh_kernel : kernel := __init__ (Some profile_dir) profile_fs.
Definition fresh_kernel_no_profile : kernel := __init__ None empty_fs.

End Scenario.

(** ** The version probe *)

Module Version.
Import PyStr Kernel.

(** How [check_output(['scilab', '-version'])] ends: with the output of the
    process, with CalledProcessError and the output it carries, or with the
    OSError of a missing executable, which [banner] does not catch. *)
Inductive probe : Type :=
| ProbeOutput (out : string)
| ProbeCalledProcessError (out : string)
| ProbeOSError.

(** The [banner] property.  [cache] is the [_banner] attribute, [None] until
    the first successful read. *)
Definition banner (p : probe) (cache : option string)
  : result string * option string :=
  match cache with
  | Some b => (Ok b, cache)
  | None =>
      match p with
      | ProbeOutput out => (Ok out, Some out)
      | ProbeCalledProcessError out => (Ok out, Some out)
      | ProbeOSError => (Raise OSError, None)
      end
  end.

(** [\d] on byte strings *)
Definition isdigit (c : ascii) : bool :=
  let n := nat_of_ascii c in (48 <=? n)%nat && (n <=? 57)%nat.

Definition is_dot (c : ascii) : bool := Ascii.eqb c "."%char.

Definition version_prefix : string :=
  "version " ++ String DQUOTE EmptyString.

(** What [\d+(\.\d+)+] still takes of [s] once it is past a digit: more
    digits, and every dot that a digit follows.  Both repetitions are
    greedy. *)
Fixpoint number_tail (s : string) : string :=
  match s with
  | EmptyString => EmptyString
  | String c r =>
      if isdigit c then String c (number_tail r)
      else if is_dot c then
        match r with
        | String d r' =>
            if isdigit d then String c (String d (number_tail r'))
            else EmptyString
        | EmptyString => EmptyString
        end
      else EmptyString
  end.

(** [version_pat] matched at the head of [s]: group 1 of the match.  The
    pattern asks for one dotted group at least. *)
Definition version_at (s : string) : option string :=
  if startswith version_prefix s then
    match drop (String.length version_prefix) s with
    | String d r =>
        if isdigit d then
          let v := String d (number_tail r) in
          if contains "." v then Some v else None
        else None
    | EmptyString => None
    end
  else None.

(** [version_pat.search(s)], as group 1 of the leftmost match *)
Fixpoint version_search (s : string) : option string :=
  match version_at s with
  | Some v => Some v
  | None =>
      match s with
      | EmptyString => None
      | String _ s' => version_search s'
      end
  end.

(** A version number as the pattern accepts it: digits and dots, with a
    digit first and last and one dot at least. *)
Definition dotted_number (v : string) : Prop :=
  all_chars (fun c => isdigit c || is_dot c) v = true
  /\ (exists d r, v = String d r /\ isdigit d = true)
  /\ (exists c, last_char v = Some c /\ isdigit c = true)
  /\ contains "." v = true.

(** The [language_version] property: it logs the banner, searches it and
    returns group 1; [m.group] on [None] is an AttributeError. *)
Definition language_version (p : probe) (cache : option string) (k : kernel)
  : result string * (option string * kernel) :=
  match banner p cache with
  | (Raise e, cache) => (Raise e, (cache, k))
  | (Ok b, cache) =>
      let k := emit (EvLog b) k in
      match banner p cache with
      | (Raise e, cache) => (Raise e, (cache, k))
      | (Ok b, cache) =>
          match version_search b with
          | Some v => (Ok v, (cache, k))
          | None => (Raise AttributeError, (cache, k))
          end
      end
  end.

End Version.

(** ** Sessions of requests *)

Module Session.
Import PyStr Kernel Scenario.

Definition restart_form (c : string) : Prop :=
  c = "restart" \/ startswith "restart(" c = true.

(** The trimmed inputs that [do_execute] treats as a help query: a leading
    or trailing [?], and none of the keyword forms. *)
Definition help_query (c : string) : bool :=
  negb (negb (nonempty c) || String.eqb c "keyboard" || startswith "keyboard(" c)
  && negb (String.eqb c "exit" || startswith "exit(" c
           || String.eqb c "quit" || startswith "quit(" c)
  && negb (String.eqb c "restart" || startswith "restart(" c)
  && (endswith "?" c || startswith "?" c).

Definition is_eval (e : event) : bool :=
  match e with EvEval _ => true | _ => false end.

Definition is_put (e : event) : bool :=
  match e with EvPut _ _ => true | _ => false end.

(** The bytes that end a token of [do_complete] and [_get_help]. *)
Definition is_separator (c : ascii) : bool :=
  text_isspace c || Ascii.eqb c ";"%char.

(** No byte of [s] is a separator. *)
Definition separator_free (s : string) : Prop :=
  all_chars (fun c => negb (is_separator c)) s = true.

(** The token [do_complete] completes. *)
Definition completion_token (code : string) (cursor_pos : Z) : string :=
  PyList.last_item
    (text_split (replace ";"%char " " (slice_to code cursor_pos))) EmptyString.

(** The name a help query asks about: the last token of the query once its
    question marks are taken out, the empty string when there is none. *)
Definition help_token (c : string) : string :=
  PyList.last_item
    (text_split (replace ";"%char " " (replace "?"%char EmptyString c)))
    EmptyString.

(** The command [do_complete] sends for a token. *)
Definition completion_command (token : string) : string :=
  "completion(" ++ String DQUOTE token ++ String DQUOTE ")".

(** A request to one of the handlers. *)
Inductive request : Type :=
| Execute (code : string) (silent store_history : bool)
| Complete (code : string) (cursor_pos : Z)
| Inspect (code : string) (cursor_pos detail_level : Z)
| History
| Shutdown (restart : bool).

(** The kernel after a request is served. *)
Definition serve (E : engine) (r : request) (k : kernel) : kernel :=
  match r with
  | Execute code silent store_history =>
      snd (do_execute E code silent store_history k)
  | Complete code cursor_pos => snd (do_complete E code cursor_pos k)
  | Inspect code cursor_pos detail_level =>
      snd (do_inspect code cursor_pos detail_level k)
  | History => snd (do_history k)
  | Shutdown restart => snd (do_shutdown restart k)
  end.

Definition serve_all (E : engine) (rs : list request) (k : kernel) : kernel :=
  fold_left (fun k r => serve E r k) rs k.

(** From [f] to [f'] no file changed but [target], and no directory
    listing, except that the directory of [target] may have gained its
    name. *)
Definition writes_only (target : option string) (f f' : filesystem) : Prop :=
  (forall q, target <> Some q -> files f' q = files f q)
  /\ forall d,
       dirs f' d = dirs f d
       \/ exists p entries,
            target = Some p /\ d = dirname p
            /\ dirs f d = Some entries
            /\ ~ In (basename p) entries
            /\ dirs f' d = Some (entries ++ [basename p])%list.

(** [l] begins with [l0]. *)
Definition extends {A : Type} (l0 l : list A) : Prop :=
  exists added, l = (l0 ++ added)%list.

(** A file system with a directory in it, and a Scilab that answers a
    completion query. *)
Definition home_fs : filesystem :=
  {| files := fun _ => None;
     dirs := fun p => if String.eqb p "/home"
                      then Some ["user"; "public"; "upload"] else None |}.

(** A file system where the path of the history file is a directory. *)
Definition blocked_fs : filesystem :=
  {| files := fun _ => None;
     dirs := fun d =>
       if String.eqb d profile_dir then Some ["scilab_kernel.hist"]
       else if String.eqb d (path_join profile_dir "scilab_kernel.hist")
            then Some []
            else None |}.

Definition completing_engine : engine :=
  {| eng_eval := fun _ _ => Returns (PyText "!plot !plot2d !plot3d !");
     eng_exists := fun _ _ => 1%Z;
     eng_dir := fun _ => ["plot"; "plot3d"; "plotter"; "put"] |}.

Definition interrupting_engine : engine :=
  {| eng_eval := fun _ _ => KeyboardInterrupt;
     eng_exists := fun _ _ => 0%Z;
     eng_dir := fun _ => [] |}.

Definition crashing_engine : engine :=
  {| eng_eval := fun _ _ => OtherException;
     eng_exists := fun _ _ => 0%Z;
     eng_dir := fun _ => [] |}.

End Session.

(** ** Facts about the string functions *)

Module PyStrFacts.
Import PyStr.

Lemma rstrip_all_space s :
  all_chars text_isspace s = true -> text_rstrip s = EmptyString.
Proof.
  induction s as [|c s IH]; [reflexivity|].
  cbn [all_chars text_rstrip].
  intros H. apply andb_true_iff in H as [Hc Hs].
  rewrite (IH Hs), Hc. reflexivity.
Qed.

Lemma strip_all_space s :
  all_chars text_isspace s = true -> text_strip s = EmptyString.
Proof. intros H. unfold text_strip. rewrite (rstrip_all_space s H). reflexivity. Qed.

Lemma nonempty_false s : nonempty s = false <-> s = EmptyString.
Proof. destruct s; simpl; split; congruence. Qed.

Lemma startswith_app p s : startswith p (p ++ s) = true.
Proof.
  induction p as [|a p IH]; simpl; [reflexivity|].
  rewrite Ascii.eqb_refl. exact IH.
Qed.

Lemma startswith_split p s :
  startswith p s = true -> s = p ++ drop (String.length p) s.
Proof.
  revert s. induction p as [|a p IH]; intros s H; simpl in *; [reflexivity|].
  destruct s as [|b s]; [discriminate|].
  apply andb_true_iff in H as [Hab Hp].
  apply Ascii.eqb_eq in Hab. subst b. f_equal. apply IH, Hp.
Qed.

Lemma app_assoc (a b c : string) : (a ++ b) ++ c = a ++ (b ++ c).
Proof. induction a as [|x a IH]; simpl; [reflexivity | now rewrite IH]. Qed.

Lemma app_empty_r (a : string) : a ++ EmptyString = a.
Proof. induction a as [|x a IH]; simpl; [reflexivity | now rewrite IH]. Qed.

Lemma length_app (a b : string) :
  String.length (a ++ b) = String.length a + String.length b.
Proof. induction a as [|x a IH]; simpl; [reflexivity | now rewrite IH]. Qed.

Lemma drop_app (a b : string) : drop (String.length a) (a ++ b) = b.
Proof. induction a as [|x a IH]; simpl; [reflexivity | exact IH]. Qed.

Lemma take_app (a b : string) : take (String.length a) (a ++ b) = a.
Proof. induction a as [|x a IH]; simpl; [reflexivity | now rewrite IH]. Qed.

Lemma take_drop n s : take n s ++ drop n s = s.
Proof.
  revert s. induction n as [|n IH]; intros s; simpl; [reflexivity|].
  destruct s as [|c s]; simpl; [reflexivity | now rewrite IH].
Qed.

Lemma drop_drop n m s : drop m (drop n s) = drop (n + m) s.
Proof.
  revert s. induction n as [|n IH]; intros s; simpl; [reflexivity|].
  destruct s as [|c s]; [now destruct m | apply IH].
Qed.

Lemma length_take n s : n <= String.length s -> String.length (take n s) = n.
Proof.
  revert s. induction n as [|n IH]; intros s H; simpl; [reflexivity|].
  destruct s as [|c s]; simpl in *; [lia|]. rewrite IH; lia.
Qed.

Lemma find_unfold sub s :
  find sub s
  = if startswith sub s then Some O
    else match s with
         | EmptyString => None
         | String _ s' => option_map S (find sub s')
         end.
Proof. destruct s; reflexivity. Qed.

Lemma find_bound sub s i :
  find sub s = Some i -> i + String.length sub <= String.length s.
Proof.
  revert i. induction s as [|c s IH]; intros i; rewrite find_unfold.
  - destruct (startswith sub EmptyString) eqn:Hs; [|discriminate].
    intros [= <-]. destruct sub; [simpl; lia | discriminate].
  - destruct (startswith sub (String c s)) eqn:Hs.
    + intros [= <-]. apply startswith_split in Hs.
      rewrite Hs, length_app. simpl. lia.
    + destruct (find sub s) as [j|]; [|discriminate].
      intros [= <-]. specialize (IH j eq_refl). simpl. lia.
Qed.

(** [find] returns the first place where [sub] occurs. *)
Lemma find_Some sub s i :
  find sub s = Some i ->
  s = take i s ++ sub ++ drop (i + String.length sub) s
  /\ forall pre post, s = pre ++ sub ++ post -> i <= String.length pre.
Proof.
  revert i. induction s as [|c s IH]; intros i; rewrite find_unfold.
  - destruct (startswith sub EmptyString) eqn:Hs; [|discriminate].
    intros [= <-]. split; [|intros; lia].
    simpl. now apply startswith_split.
  - destruct (startswith sub (String c s)) eqn:Hs.
    + intros [= <-]. split; [|intros; lia].
      simpl. now apply startswith_split.
    + destruct (find sub s) as [j|] eqn:Hf; [|discriminate].
      intros [= <-]. destruct (IH j eq_refl) as [Heq Hmin]. split.
      * simpl. now rewrite <- Heq.
      * intros [|c' pre] post Hpre; simpl in Hpre.
        -- rewrite Hpre, startswith_app in Hs. discriminate.
        -- injection Hpre as -> Hpre. simpl. apply le_n_S. eapply Hmin, Hpre.
Qed.

Lemma find_None sub s :
  find sub s = None -> forall pre post, s <> pre ++ sub ++ post.
Proof.
  induction s as [|c s IH]; rewrite find_unfold.
  - destruct (startswith sub EmptyString) eqn:Hs; [discriminate|].
    intros _ [|c' pre] post Hpre; simpl in Hpre; [|discriminate].
    rewrite Hpre, startswith_app in Hs. discriminate.
  - destruct (startswith sub (String c s)) eqn:Hs; [discriminate|].
    destruct (find sub s) as [j|] eqn:Hf; [discriminate|].
    intros _ [|c' pre] post Hpre; simpl in Hpre.
    + rewrite Hpre, startswith_app in Hs. discriminate.
    + injection Hpre as -> Hpre. exact (IH eq_refl pre post Hpre).
Qed.

Lemma last_char_take_get n s :
  n < String.length s -> last_char (take (S n) s) = String.get n s.
Proof.
  revert s. induction n as [|n IH]; intros s H.
  - destruct s as [|c s]; simpl in *; [lia | reflexivity].
  - destruct s as [|c s]; [simpl in H; lia|].
    simpl in H. specialize (IH s ltac:(lia)).
    change (take (S (S n)) (String c s)) with (String c (take (S n) s)).
    simpl String.get. rewrite <- IH.
    destruct s as [|c' s]; [simpl in H; lia | reflexivity].
Qed.

End PyStrFacts.

(** ** The underscore substitution and the word-boundary rule *)

Module UnderscoreFacts.
Import PyStr PyStrFacts Underscore.

Lemma is_us_word c : is_us c = true -> isword c = true.
Proof. unfold is_us. intros H. apply Ascii.eqb_eq in H. now subst. Qed.

Lemma nonword_not_us c : isword c = false -> is_us c = false.
Proof.
  intros H. destruct (is_us c) eqn:U; [|reflexivity].
  apply is_us_word in U. congruence.
Qed.

Lemma fill_value_cons c s :
  fill_value (String c s)
  = if is_us c then last_kernel_value ++ fill_value s else String c (fill_value s).
Proof. reflexivity. Qed.

Ltac us_word_clash :=
  match goal with
  | U : is_us ?c = true, W : isword ?c = false |- _ =>
      apply is_us_word in U; congruence
  end.

Lemma sub_from_step (b : bool) c1 s1 :
  sub_from b (String c1 s1)
  = if nonword c1 && starts_with_us s1 && negb (starts_with_word (drop 1 s1))
    then String c1 (last_kernel_value ++ take 1 (drop 1 s1) ++ sub_from false (drop 2 s1))
    else if b && is_us c1 && negb (starts_with_word s1)
    then last_kernel_value ++ take 1 s1 ++ sub_from false (drop 1 s1)
    else String c1 (sub_from false s1).
Proof.
  destruct s1 as [|c2 [|c3 s3]].
  - change (sub_from b (String c1 EmptyString))
      with (if b && is_us c1 then fill_value (String c1 EmptyString)
            else String c1 EmptyString).
    cbn [starts_with_us starts_with_word drop take andb negb].
    rewrite !andb_false_r, andb_true_r.
    destruct (b && is_us c1) eqn:H; [|reflexivity].
    apply andb_true_iff in H as [_ U]. rewrite fill_value_cons, U. reflexivity.
  - change (sub_from b (String c1 (String c2 EmptyString)))
      with (if nonword c1 && is_us c2
            then fill_value (String c1 (String c2 EmptyString))
            else if b && is_us c1 && nonword c2
            then fill_value (String c1 (String c2 EmptyString))
                 ++ sub_from false EmptyString
            else String c1 (sub_from false (String c2 EmptyString))).
    unfold nonword.
    cbn [starts_with_us starts_with_word drop take andb negb].
    rewrite andb_true_r.
    destruct (isword c1) eqn:W1, (is_us c2) eqn:U2; cbn [negb andb];
      rewrite ?andb_false_r; cbn [andb].
    all: try (rewrite !fill_value_cons, (nonword_not_us c1 W1), U2; reflexivity).
    all: destruct (b && is_us c1) eqn:H; cbn [andb]; try reflexivity.
    all: destruct (isword c2) eqn:W2; cbn [negb]; try reflexivity.
    all: apply andb_true_iff in H as [_ U1].
    all: try us_word_clash.
    all: rewrite !fill_value_cons, U1, ?U2, ?(nonword_not_us c2 W2).
    all: reflexivity.
  - change (sub_from b (String c1 (String c2 (String c3 s3))))
      with (if nonword c1 && is_us c2 && nonword c3
            then fill_value (String c1 (String c2 (String c3 EmptyString)))
                 ++ sub_from false s3
            else if b && is_us c1 && nonword c2
            then fill_value (String c1 (String c2 EmptyString))
                 ++ sub_from false (String c3 s3)
            else String c1 (sub_from false (String c2 (String c3 s3)))).
    unfold nonword.
    cbn [starts_with_us starts_with_word drop take].
    destruct (negb (isword c1) && is_us c2 && negb (isword c3)) eqn:M1.
    + apply andb_true_iff in M1 as [M1 W3]. apply andb_true_iff in M1 as [W1 U2].
      apply negb_true_iff in W1, W3.
      rewrite !fill_value_cons, (nonword_not_us c1 W1), U2, (nonword_not_us c3 W3).
      cbn [append fill_value replace]. rewrite !app_assoc. reflexivity.
    + destruct (b && is_us c1 && negb (isword c2)) eqn:M2; [|reflexivity].
      apply andb_true_iff in M2 as [M2 W2]. apply andb_true_iff in M2 as [_ U1].
      apply negb_true_iff in W2.
      rewrite !fill_value_cons, U1, (nonword_not_us c2 W2).
      cbn [append fill_value replace]. rewrite !app_assoc. reflexivity.
Qed.

Lemma word_boundary_step pw c rest :
  word_boundary_from pw (String c rest)
  = if is_us c && negb pw && negb (starts_with_word rest)
    then last_kernel_value ++ word_boundary_from true rest
    else String c (word_boundary_from (isword c) rest).
Proof. reflexivity. Qed.

Lemma crowded_step c1 s1 :
  crowded (String c1 s1)
  = (is_us c1
     && match s1 with
        | String c2 s2 => nonword c2 && starts_with_us s2
        | EmptyString => false
        end)
    || crowded s1.
Proof. reflexivity. Qed.

Lemma sub_from_word_boundary n :
  forall s (at_start pw : bool),
    String.length s <= n ->
    crowded s = false ->
    (if at_start then pw = false
     else starts_with_us s = true ->
          pw = true \/ starts_with_word (drop 1 s) = true) ->
    sub_from at_start s = word_boundary_from pw s.
Proof.
  induction n as [|n IH]; intros s at_start pw Hlen Hcr Hctx.
  - destruct s; [reflexivity | simpl in Hlen; lia].
  - destruct s as [|c1 s1]; [reflexivity|].
    simpl in Hlen. rewrite crowded_step in Hcr.
    apply orb_false_iff in Hcr as [Hhere Hcr].
    (* the tail after a consumed separator *)
    assert (Htail : forall s,
               String.length s <= n -> crowded s = false ->
               starts_with_word s = false -> starts_with_us (drop 1 s) = false ->
               take 1 s ++ sub_from false (drop 1 s) = word_boundary_from true s).
    { intros [|c s'] Hl Hc Hw Hu; [reflexivity|].
      cbn [take drop append starts_with_word] in *.
      rewrite word_boundary_step, (nonword_not_us c Hw). cbn [andb]. f_equal.
      rewrite Hw. rewrite crowded_step in Hc. apply orb_false_iff in Hc as [_ Hc].
      apply IH; [simpl in Hl; lia | exact Hc |].
      cbn iota. intros Hus. congruence. }
    rewrite sub_from_step, word_boundary_step.
    destruct (nonword c1 && starts_with_us s1 && negb (starts_with_word (drop 1 s1))) eqn:M1.
    + apply andb_true_iff in M1 as [M1 W2]. apply andb_true_iff in M1 as [W1 U1].
      apply negb_true_iff in W2. unfold nonword in W1. apply negb_true_iff in W1.
      destruct s1 as [|c2 s2]; [discriminate|].
      cbn [starts_with_us drop] in *.
      rewrite (nonword_not_us c1 W1), W1. cbn [andb]. f_equal.
      rewrite word_boundary_step, U1, W2. cbn [andb negb]. f_equal.
      rewrite crowded_step in Hcr. apply orb_false_iff in Hcr as [Hc2 Hcr].
      rewrite U1 in Hc2. cbn [andb] in Hc2.
      apply Htail; [simpl in Hlen; lia | exact Hcr | exact W2 |].
      destruct s2 as [|c3 s3]; [reflexivity|].
      cbn [starts_with_word drop] in *. unfold nonword in Hc2.
      rewrite W2 in Hc2. exact Hc2.
    + destruct (at_start && is_us c1 && negb (starts_with_word s1)) eqn:M2.
      * apply andb_true_iff in M2 as [M2 W]. apply andb_true_iff in M2 as [-> U1].
        apply negb_true_iff in W. subst pw. rewrite U1, W. cbn [andb negb]. f_equal.
        rewrite U1 in Hhere. cbn [andb] in Hhere.
        apply Htail; [lia | exact Hcr | exact W |].
        destruct s1 as [|c2 s2]; [reflexivity|].
        cbn [starts_with_word drop] in *. unfold nonword in Hhere.
        rewrite W in Hhere. exact Hhere.
      * destruct (is_us c1 && negb pw && negb (starts_with_word s1)) eqn:R.
        -- exfalso. apply andb_true_iff in R as [R W]. apply andb_true_iff in R as [U1 P].
           apply negb_true_iff in W, P. subst pw. rewrite U1, W in M2.
           destruct at_start; [discriminate|].
           cbn [starts_with_us drop] in Hctx.
           destruct (Hctx U1) as [? | ?]; congruence.
        -- f_equal. apply IH; [lia | exact Hcr |]. cbn iota. intros Hus.
           rewrite Hus, andb_true_r in M1. unfold nonword in M1.
           destruct (isword c1); [now left | right].
           cbn [negb andb] in M1. now apply negb_false_iff in M1.
Qed.

(** On input where no [_] stands two bytes after another with a non-word
    byte between them, [re_sub] is the word-boundary substitution. *)
Lemma re_sub_word_boundary code :
  crowded code = false -> re_sub code = word_boundary_sub code.
Proof.
  intros H. apply (sub_from_word_boundary (String.length code)); auto.
Qed.

Lemma contains_us_false s :
  contains "_" s = false -> all_chars (fun c => negb (is_us c)) s = true.
Proof.
  unfold contains. induction s as [|c s IH]; [reflexivity|].
  rewrite find_unfold. cbn [startswith all_chars].
  rewrite andb_true_r, Ascii.eqb_sym. fold (is_us c).
  destruct (is_us c); [discriminate|].
  destruct (find "_" s); [discriminate|]. intros _. now apply IH.
Qed.

Lemma word_boundary_without_us pw s :
  all_chars (fun c => negb (is_us c)) s = true -> word_boundary_from pw s = s.
Proof.
  revert pw. induction s as [|c s IH]; intros pw H; [reflexivity|].
  cbn [all_chars] in H. apply andb_true_iff in H as [Hc Hs].
  apply negb_true_iff in Hc.
  rewrite word_boundary_step, Hc. cbn [andb]. now rewrite IH.
Qed.

(** The command [do_execute] submits is the word-boundary substitution of
    the trimmed input, unless the input is crowded. *)
Lemma submitted_word_boundary c :
  crowded c = false -> Scenario.submitted c = word_boundary_sub c.
Proof.
  intros H. unfold Scenario.submitted.
  destruct (contains "_" c) eqn:Hc; [now apply re_sub_word_boundary|].
  symmetry. now apply word_boundary_without_us, contains_us_false.
Qed.

End UnderscoreFacts.

(** ** The handlers: what a call leaves unchanged *)

Module KernelFacts.
Import PyStr PyStrFacts Kernel Scenario.

Section WithEngine.

Variable E : engine.

Lemma starts_with_head a p c :
  startswith (String a p) c = true -> exists c', c = String a c'.
Proof.
  destruct c as [|b c]; simpl; [discriminate|].
  intros H. apply andb_true_iff in H as [H _].
  apply Ascii.eqb_eq in H. subst b. now exists c.
Qed.

Lemma keyboard_form_test c :
  keyboard_form c ->
  nonempty c = true
  /\ (negb (nonempty c) || String.eqb c "keyboard" || startswith "keyboard(" c) = true.
Proof.
  intros [-> | H]; [split; reflexivity|].
  destruct (starts_with_head _ _ _ H) as [c' ->].
  split; [reflexivity|]. rewrite H. apply orb_true_r.
Qed.

Lemma exit_form_test c :
  exit_form c ->
  nonempty c = true
  /\ (negb (nonempty c) || String.eqb c "keyboard" || startswith "keyboard(" c) = false
  /\ (String.eqb c "exit" || startswith "exit(" c
      || String.eqb c "quit" || startswith "quit(" c) = true.
Proof.
  intros [-> | [H | [-> | H]]]; try (repeat split; reflexivity);
    destruct (starts_with_head _ _ _ H) as [c' ->];
    (split; [reflexivity|]); (split; [reflexivity|]);
    rewrite H; rewrite ?orb_true_r; reflexivity.
Qed.

(** Empty input and the breakpoint keyword: the ok reply, and at most the
    history entry of line 80. *)
Lemma do_execute_returns_early code silent store_history k :
  text_strip code = EmptyString \/ keyboard_form (text_strip code) ->
  do_execute E code silent store_history k
  = (Ok (ReplyOk (execution_count k)),
     if nonempty (text_strip code) && store_history then record (text_strip code) k else k).
Proof.
  intros H. unfold do_execute. cbv zeta.
  assert (Ht : (negb (nonempty (text_strip code)) || String.eqb (text_strip code) "keyboard"
                || startswith "keyboard(" (text_strip code)) = true).
  { destruct H as [-> | H]; [reflexivity | apply keyboard_form_test, H]. }
  rewrite Ht.
  destruct (nonempty (text_strip code) && store_history); reflexivity.
Qed.

(** *** Fields the helpers leave alone *)

Lemma keeps_refl k : keeps_fields k k.
Proof. repeat split. Qed.

Lemma keeps_trans k1 k2 k3 :
  keeps_fields k1 k2 -> keeps_fields k2 k3 -> keeps_fields k1 k3.
Proof.
  unfold keeps_fields. intros (A1 & A2 & A3 & A4) (B1 & B2 & B3 & B4).
  repeat split; congruence.
Qed.

Lemma keeps_emit e k : keeps_fields k (emit e k).
Proof. repeat split. Qed.

Lemma keeps_set_fs f k : keeps_fields k (set_fs f k).
Proof. repeat split. Qed.

Lemma keeps_do_shutdown restart k : keeps_fields k (snd (do_shutdown restart k)).
Proof.
  unfold do_shutdown. cbv zeta.
  set (k1 := if restart then _ else _).
  assert (H : keeps_fields k k1) by (unfold k1; destruct restart; repeat split).
  destruct (hist_file_set k1); [destruct (write_file _ _ _)|]; cbn [snd];
    exact H.
Qed.

Lemma keeps_get_help code k : keeps_fields k (_get_help E code k).
Proof.
  unfold _get_help. cbv zeta.
  destruct (text_split _); [apply keeps_refl|].
  destruct (negb _); repeat split.
Qed.

Lemma keeps_handle_output v silent k :
  keeps_fields k (snd (_handle_output v silent k)).
Proof. destruct v, silent; repeat split. Qed.

Lemma keeps_handle_error err k : keeps_fields k (snd (_handle_error err k)).
Proof. repeat split. Qed.

(** [do_execute] changes the kernel's own fields at line 80 only. *)
Lemma do_execute_fields code silent store_history k :
  keeps_fields
    (if nonempty (text_strip code) && store_history then record (text_strip code) k else k)
    (snd (do_execute E code silent store_history k)).
Proof.
  unfold do_execute. cbv zeta.
  set (c := text_strip code).
  set (k1 := if nonempty c && store_history then record c k else k).
  destruct (negb (nonempty c) || String.eqb c "keyboard" || startswith "keyboard(" c);
    [apply keeps_refl|].
  destruct (String.eqb c "exit" || startswith "exit(" c
            || String.eqb c "quit" || startswith "quit(" c).
  { generalize (keeps_do_shutdown false k1).
    destruct (do_shutdown false k1) as [[r|e] k2]; exact (fun H => H). }
  destruct (String.eqb c "restart" || startswith "restart(" c); [apply keeps_emit|].
  destruct (endswith "?" c || startswith "?" c); [apply keeps_get_help|].
  set (c' := if contains "_" c then Underscore.re_sub c else c).
  destruct (eng_eval E (trace k1) [c']) as [v| |msg|].
  - generalize (keeps_handle_output v silent (emit (EvEval [c']) k1)).
    destruct (_handle_output v silent (emit (EvEval [c']) k1)) as [out k2].
    intros H. destruct (String.eqb out interrupted_text); simpl;
      (eapply keeps_trans; [apply keeps_emit | exact H]).
  - simpl. eapply keeps_trans; apply keeps_emit.
  - eapply keeps_trans; [apply keeps_emit | apply keeps_handle_error].
  - simpl. eapply keeps_trans; apply keeps_emit.
Qed.

Lemma do_execute_hist_cache code silent store_history k :
  hist_cache (snd (do_execute E code silent store_history k))
  = if nonempty (text_strip code) && store_history
    then (hist_cache k ++ [text_strip code])%list else hist_cache k.
Proof.
  destruct (do_execute_fields code silent store_history k) as (_ & _ & _ & H).
  rewrite H. destruct (nonempty (text_strip code) && store_history); reflexivity.
Qed.

Lemma do_execute_config code silent store_history k :
  let k' := snd (do_execute E code silent store_history k) in
  execution_count k' = execution_count k
  /\ hist_file k' = hist_file k
  /\ max_hist_cache k' = max_hist_cache k.
Proof.
  destruct (do_execute_fields code silent store_history k) as (H1 & H2 & H3 & _).
  cbv zeta. rewrite H1, H2, H3.
  destruct (nonempty (text_strip code) && store_history); repeat split.
Qed.

(** *** A run of recorded calls *)

Lemma run_executes_config calls k :
  let k' := run_executes E calls k in
  execution_count k' = execution_count k
  /\ hist_file k' = hist_file k
  /\ max_hist_cache k' = max_hist_cache k.
Proof.
  revert k. induction calls as [|[code silent] calls IH]; intros k; simpl.
  - repeat split.
  - destruct (IH (snd (do_execute E code silent true k))) as (H1 & H2 & H3).
    destruct (do_execute_config code silent true k) as (G1 & G2 & G3).
    cbv zeta in *. repeat split; congruence.
Qed.

Lemma run_executes_hist_cache calls k :
  Forall (fun call => nonempty (text_strip (fst call)) = true) calls ->
  hist_cache (run_executes E calls k)
  = (hist_cache k ++ map (fun call => text_strip (fst call)) calls)%list.
Proof.
  revert k. induction calls as [|[code silent] calls IH]; intros k Hne; simpl.
  - now rewrite List.app_nil_r.
  - inversion Hne as [|? ? Hc Hrest]; subst. simpl in Hc.
    rewrite (IH _ Hrest), do_execute_hist_cache, Hc. simpl.
    now rewrite <- List.app_assoc.
Qed.

(** *** What [do_shutdown] writes *)

Lemma slice_from_last {A : Type} (l : list A) (m : Z) :
  (0 < m)%Z -> PyList.slice_from l (- m) = last_entries (Z.to_nat m) l.
Proof.
  intros Hm. unfold PyList.slice_from, last_entries, clip.
  destruct (Z.ltb_spec (- m) 0); [|lia].
  f_equal. lia.
Qed.

Lemma write_file_Some p data f f' :
  write_file p data f = Some f' -> f' = put_file p data f.
Proof.
  unfold write_file. destruct (dirs f p); [discriminate|].
  destruct (dirs f (dirname p)); [|discriminate]. now intros [= <-].
Qed.

Lemma put_file_files p data f : files (put_file p data f) p = Some data.
Proof. simpl. now rewrite String.eqb_refl. Qed.

(** What [do_shutdown] does, by whether the history file can be opened. *)
Lemma do_shutdown_unfold (restart : bool) k :
  let k1 := emit (if restart then EvRestart else EvClose)
              (emit (EvLog "**Shutting down") k) in
  do_shutdown restart k
  = match hist_file_set k with
    | Some p =>
        match write_file p
                (join newline
                   (PyList.slice_from (hist_cache k) (- max_hist_cache k)))
                (fs k) with
        | Some f => (Ok {| restart_flag := restart |}, set_fs f k1)
        | None => (Raise IOError, k1)
        end
    | None => (Ok {| restart_flag := restart |}, k1)
    end.
Proof. destruct restart; reflexivity. Qed.

Lemma do_shutdown_file restart k p reply :
  hist_file_set k = Some p ->
  fst (do_shutdown restart k) = Ok reply ->
  files (fs (snd (do_shutdown restart k))) p
  = Some (join newline (PyList.slice_from (hist_cache k) (- max_hist_cache k))).
Proof.
  intros Hp. rewrite do_shutdown_unfold. cbv zeta. rewrite Hp.
  destruct (write_file _ _ _) as [f|] eqn:Hw; [|discriminate].
  intros _. apply write_file_Some in Hw. subst f. cbn [snd].
  apply put_file_files.
Qed.

Lemma do_shutdown_trace restart k :
  trace (snd (do_shutdown restart k))
  = (trace k ++ [EvLog "**Shutting down"; if restart then EvRestart else EvClose])%list.
Proof.
  rewrite do_shutdown_unfold. cbv zeta.
  destruct (hist_file_set k); [destruct (write_file _ _ _)|];
    cbn [snd]; simpl; now rewrite <- List.app_assoc.
Qed.

(** *** The evaluation path of [do_execute] *)

Lemma do_execute_evaluated code silent (store_history : bool) k :
  evaluated (text_strip code) = true ->
  let c := text_strip code in
  let k1 := if store_history then record c k else k in
  let k2 := emit (EvEval [submitted c]) k1 in
  do_execute E code silent store_history k
  = match eng_eval E (trace k1) [submitted c] with
    | Returns v =>
        (Ok (if String.eqb (output_text v) interrupted_text
             then ReplyAbort (execution_count k) else ReplyOk (execution_count k)),
         snd (_handle_output v silent k2))
    | KeyboardInterrupt =>
        (Ok (ReplyAbort (execution_count k)), emit EvSendSigint k2)
    | Scilab2PyError msg =>
        (Ok (ReplyError (execution_count k) EmptyString (categorize msg) []),
         send_stdout (strip (categorize msg)) k2)
    | OtherException => (Ok (ReplyOk (execution_count k)), emit EvRestart k2)
    end.
Proof.
  unfold evaluated. intros H.
  repeat (apply andb_true_iff in H as [H ?]).
  repeat match goal with
         | Hn : negb _ = true |- _ => apply negb_true_iff in Hn
         end.
  assert (Hne : nonempty (text_strip code) = true).
  { destruct (nonempty (text_strip code)); [reflexivity | discriminate]. }
  cbv zeta. unfold do_execute, submitted. cbv zeta.
  repeat match goal with
         | Hb : ?b = false |- context [if ?b then _ else _] => rewrite Hb
         end.
  rewrite Hne. simpl andb.
  set (k1 := if store_history then record (text_strip code) k else k).
  assert (Hc : execution_count k1 = execution_count k)
    by (unfold k1; now destruct store_history).
  destruct (eng_eval E (trace k1) _) as [v| | |];
    try (unfold _handle_error; simpl; now rewrite ?Hc).
  destruct v, silent; simpl; rewrite ?Hc;
    match goal with |- context [if ?b then _ else _] => destruct b end; reflexivity.
Qed.

(** A value that Scilab returns is sent to stdout exactly when the call is
    not silent. *)
Lemma handle_output_trace v silent k :
  _handle_output v silent k
  = (output_text v,
     if silent then fold_left (fun k e => emit e k) (output_puts v) k
     else send_stdout (output_text v)
            (fold_left (fun k e => emit e k) (output_puts v) k)).
Proof. destruct v, silent; reflexivity. Qed.

Lemma trace_emit_all evs k :
  trace (fold_left (fun k e => emit e k) evs k) = (trace k ++ evs)%list.
Proof.
  revert k. induction evs as [|e evs IH]; intros k; simpl.
  - now rewrite List.app_nil_r.
  - rewrite IH. simpl. now rewrite <- List.app_assoc.
Qed.

Lemma record_trace c (b : bool) k : trace (if b then record c k else k) = trace k.
Proof. now destruct b. Qed.

Lemma silent_result_not_streamed code store_history k v :
  evaluated (text_strip code) = true ->
  eng_eval E (trace k) [submitted (text_strip code)] = Returns v ->
  exists added,
    trace (snd (do_execute E code true store_history k)) = (trace k ++ added)%list
    /\ added = EvEval [submitted (text_strip code)] :: output_puts v
    /\ existsb is_stream added = false.
Proof.
  intros Hev Hout.
  rewrite (do_execute_evaluated code true store_history k Hev).
  cbv zeta. rewrite record_trace, Hout. cbn [snd].
  rewrite handle_output_trace. cbn [snd].
  rewrite trace_emit_all. simpl trace. rewrite record_trace, <- List.app_assoc.
  eexists. split; [reflexivity|]. split; [reflexivity|].
  now destruct v.
Qed.

Lemma loud_result_streamed code store_history k v :
  evaluated (text_strip code) = true ->
  eng_eval E (trace k) [submitted (text_strip code)] = Returns v ->
  trace (snd (do_execute E code false store_history k))
  = (trace k ++ EvEval [submitted (text_strip code)] :: output_puts v
       ++ [EvStream "stdout" (output_text v)])%list.
Proof.
  intros Hev Hout.
  rewrite (do_execute_evaluated code false store_history k Hev).
  cbv zeta. rewrite record_trace, Hout. cbn [snd].
  rewrite handle_output_trace. cbn [snd]. unfold send_stdout.
  simpl trace. rewrite trace_emit_all. simpl trace.
  rewrite record_trace, <- !List.app_assoc. reflexivity.
Qed.

(** An error text is sent to stdout whether the call is silent or not. *)
Lemma error_streamed_always code silent store_history k msg :
  evaluated (text_strip code) = true ->
  eng_eval E (trace k) [submitted (text_strip code)] = Scilab2PyError msg ->
  fst (do_execute E code silent store_history k)
  = Ok (ReplyError (execution_count k) EmptyString (categorize msg) [])
  /\ trace (snd (do_execute E code silent store_history k))
     = (trace k ++ [EvEval [submitted (text_strip code)];
                    EvStream "stdout" (strip (categorize msg))])%list.
Proof.
  intros Hev Hout.
  rewrite (do_execute_evaluated code silent store_history k Hev).
  cbv zeta. rewrite record_trace, Hout.
  cbn [fst snd]. split; [reflexivity|].
  simpl. rewrite record_trace, <- List.app_assoc. reflexivity.
Qed.

End WithEngine.

End KernelFacts.

(** ** The history file *)

Module HistoryFacts.
Import PyStr PyStrFacts Kernel Scenario KernelFacts.

Lemma readlines_from_line cur x rest :
  one_line x -> readlines_from cur (x ++ rest) = readlines_from (cur ++ x) rest.
Proof.
  unfold one_line. revert cur.
  induction x as [|c x IH]; intros cur H; simpl.
  - now rewrite app_empty_r.
  - simpl in H. apply andb_true_iff in H as [Hc Hx].
    apply negb_true_iff in Hc. rewrite Hc, (IH _ Hx), app_assoc. reflexivity.
Qed.

Lemma readlines_single x :
  one_line x -> readlines x = if nonempty x then [x] else [].
Proof.
  intros H. unfold readlines.
  rewrite <- (app_empty_r x) at 1. rewrite (readlines_from_line _ _ _ H).
  reflexivity.
Qed.

Lemma join_cons sep x y l : join sep (x :: y :: l) = x ++ sep ++ join sep (y :: l).
Proof. reflexivity. Qed.

Lemma readlines_join_cons x y l :
  one_line x ->
  readlines (join newline (x :: y :: l))
  = (x ++ newline) :: readlines (join newline (y :: l)).
Proof.
  intros H. rewrite join_cons. unfold readlines.
  rewrite (readlines_from_line _ _ _ H). reflexivity.
Qed.

Lemma chomp_terminated x : chomp (x ++ newline) = x.
Proof.
  induction x as [|c x IH]; [reflexivity|].
  change (String c x ++ newline) with (String c (x ++ newline)).
  assert (H : exists d r, x ++ newline = String d r)
    by (unfold newline; destruct x; simpl; eauto).
  destruct H as (d & r & Hx). rewrite Hx in *.
  change (chomp (String c (String d r))) with (String c (chomp (String d r))).
  now rewrite IH.
Qed.

Lemma chomp_one_line x : one_line x -> chomp x = x.
Proof.
  unfold one_line. induction x as [|c x IH]; [reflexivity|].
  intros H. simpl in H. apply andb_true_iff in H as [Hc Hx].
  apply negb_true_iff in Hc. destruct x as [|d x].
  - simpl. now rewrite Hc.
  - change (chomp (String c (String d x))) with (String c (chomp (String d x))).
    now rewrite (IH Hx).
Qed.

(** Lines that were written joined by newlines are read back one for one,
    each but the last with its terminator. *)
Lemma readlines_join l :
  Forall (fun x => one_line x /\ nonempty x = true) l ->
  map chomp (readlines (join newline l)) = l
  /\ List.length (readlines (join newline l)) = List.length l.
Proof.
  induction l as [|x l IH]; intros H; [split; reflexivity|].
  inversion H as [|? ? [Hx Hne] Hl]; subst.
  destruct l as [|y l].
  - simpl join. rewrite (readlines_single x Hx), Hne. simpl.
    now rewrite (chomp_one_line x Hx).
  - rewrite (readlines_join_cons x y l Hx). cbn [map List.length].
    destruct (IH Hl) as [IH1 IH2].
    rewrite chomp_terminated, IH1, IH2. split; reflexivity.
Qed.

Lemma last_entries_Forall {A : Type} (P : A -> Prop) n (l : list A) :
  Forall P l -> Forall P (last_entries n l).
Proof.
  unfold last_entries. intros H. apply Forall_forall. intros x Hx.
  rewrite Forall_forall in H.
  apply H. rewrite <- (firstn_skipn (List.length l - n) l).
  apply in_or_app. now right.
Qed.

Lemma last_entries_length {A : Type} n (l : list A) :
  List.length (last_entries n l) <= n.
Proof. unfold last_entries. rewrite List.length_skipn. lia. Qed.

Lemma slice_to_all {A : Type} (l : list A) (m : Z) :
  (Z.of_nat (List.length l) <= m)%Z -> PyList.slice_to l m = l.
Proof.
  intros H. unfold PyList.slice_to, clip.
  destruct (Z.ltb_spec m 0); [lia|].
  rewrite Z.min_r by lia. rewrite Nat2Z.id. apply firstn_all.
Qed.

(** What [do_history] returns in the session after a [do_shutdown]: the
    entries that were written, one for one, as long as each of them is a
    single non-empty line; they differ from what was written by the line
    terminators alone. *)
Lemma history_roundtrip_up_to_terminators (k next : kernel) (p : string)
  (restart : bool) (reply : shutdown_reply) :
  hist_file_set k = Some p ->
  max_hist_cache k = 1000%Z ->
  fst (do_shutdown restart k) = Ok reply ->
  hist_file_set next = Some p ->
  max_hist_cache next = 1000%Z ->
  fs next = fs (snd (do_shutdown restart k)) ->
  Forall (fun x => one_line x /\ nonempty x = true) (hist_cache k) ->
  exists items,
    fst (do_history next) = Ok items
    /\ map (fun item => chomp (snd item)) items = last_entries 1000 (hist_cache k)
    /\ hist_cache (snd (do_history next)) = map snd items.
Proof.
  intros Hp Hm Hok Hp' Hm' Hfs Hlines.
  pose proof (do_shutdown_file restart k p reply Hp Hok) as Hfile.
  rewrite <- Hfs, Hm, slice_from_last in Hfile by lia.
  change (Z.to_nat 1000) with 1000 in Hfile.
  set (written := last_entries 1000 (hist_cache k)) in *.
  assert (Hw : Forall (fun x => one_line x /\ nonempty x = true) written)
    by (apply last_entries_Forall, Hlines).
  destruct (readlines_join written Hw) as [Hchomp Hlen].
  assert (Hcap : PyList.slice_to (readlines (join newline written)) 1000
                 = readlines (join newline written)).
  { apply slice_to_all. rewrite Hlen.
    pose proof (last_entries_length 1000 (hist_cache k)). fold written in H. lia. }
  unfold do_history. rewrite Hp'.
  assert (Hex : path_exists (fs next) p = true)
    by (unfold path_exists; now rewrite Hfile).
  rewrite Hex. simpl negb. cbv iota. unfold read_history. cbv zeta.
  rewrite Hfile, Hm', Hcap.
  eexists. split; [reflexivity|]. split.
  - rewrite List.map_map. exact Hchomp.
  - simpl. now rewrite List.map_map, List.map_id.
Qed.

End HistoryFacts.

(** ** Error texts *)

Module ErrorFacts.
Import PyStr PyStrFacts Kernel Scenario.

Lemma contains_occurs sub s : contains sub s = true <-> occurs sub s.
Proof.
  unfold contains, occurs. destruct (find sub s) as [i|] eqn:Hf; split.
  - intros _. destruct (find_Some _ _ _ Hf) as [Heq _]. eauto.
  - reflexivity.
  - discriminate.
  - intros (pre & post & Heq). now destruct (find_None _ _ Hf pre post).
Qed.

Lemma contains_absent sub s : contains sub s = false <-> ~ occurs sub s.
Proof.
  rewrite <- contains_occurs. destruct (contains sub s); split; congruence.
Qed.

Lemma find_first_occurrence sub s i :
  find sub s = Some i ->
  first_occurrence sub s (take i s) (drop (String.length sub) (drop i s)).
Proof.
  intros Hf. destruct (find_Some _ _ _ Hf) as [Heq Hmin].
  pose proof (find_bound _ _ _ Hf) as Hb.
  rewrite drop_drop. split; [exact Heq|].
  intros pre' post' Hpre. rewrite length_take by lia. eapply Hmin, Hpre.
Qed.

(** [categorize] follows the four cases, in their order. *)
Lemma categorize_spec err : categorized err (categorize err).
Proof.
  unfold categorized, categorize.
  destruct (contains parse_marker err) eqn:Hp.
  { left. split; [now apply contains_occurs | reflexivity]. }
  apply contains_absent in Hp. right.
  destruct (contains returned_marker err) eqn:Hr.
  { left. split; [exact Hp|].
    unfold contains in Hr. destruct (find returned_marker err) as [i|] eqn:Hf;
      [|discriminate].
    eexists _, _. split; [apply find_first_occurrence, Hf | reflexivity]. }
  apply contains_absent in Hr. right.
  destruct (contains syntax_marker err) eqn:Hs.
  { left. repeat split; try assumption. now apply contains_occurs. }
  apply contains_absent in Hs. right. repeat split; assumption.
Qed.

Example categorize_foo_bar : categorize "Scilab returned: Foo bar" = "Foo bar".
Proof. reflexivity. Qed.

End ErrorFacts.

(** ** Properties of the handlers *)

Module Properties.
Import PyStr PyStrFacts Kernel Scenario Session KernelFacts ErrorFacts UnderscoreFacts.

(** *** Command history *)

(** C1, as the code has it: over any run of [do_execute] calls that record
    non-empty trimmed code, the in-memory history gains one entry per call
    and is never cut, so its length is the initial length plus the number of
    calls; the cap of 1000 is applied when [do_shutdown] writes the file:
    whenever [do_shutdown] returns, that is, whenever the history file could
    be opened, the file holds the last 1000 entries of that history (all of
    them when there are fewer), joined by newlines. *)
Theorem history_grows_shutdown_writes_last_entries
  (E : engine) (calls : list (string * bool)) (k : kernel) (p : string)
  (restart : bool) :
  max_hist_cache k = 1000%Z ->
  hist_file_set k = Some p ->
  Forall (fun call => nonempty (text_strip (fst call)) = true) calls ->
  let k' := run_executes E calls k in
  let entries := (hist_cache k ++ map (fun call => text_strip (fst call)) calls)%list in
  hist_cache k' = entries
  /\ List.length (hist_cache k') = List.length (hist_cache k) + List.length calls
  /\ forall reply,
       fst (do_shutdown restart k') = Ok reply ->
       files (fs (snd (do_shutdown restart k'))) p
       = Some (join newline (last_entries 1000 entries)).
Proof.
  intros Hmax Hp Hne k' entries.
  assert (Hc : hist_cache k' = entries) by (apply run_executes_hist_cache, Hne).
  split; [exact Hc|]. split.
  - rewrite Hc. unfold entries. now rewrite List.length_app, List.length_map.
  - intros reply Hok.
    destruct (run_executes_config E calls k) as (_ & Hf & Hm). fold k' in Hf, Hm.
    assert (Hp' : hist_file_set k' = Some p).
    { unfold hist_file_set in *. now rewrite Hf. }
    rewrite (do_shutdown_file restart k' p reply Hp' Hok), Hm, Hmax, Hc.
    now rewrite slice_from_last by lia.
Qed.

Lemma history_grows_shutdown_writes_last_entries_witness :
  let calls := [("x = 1", false); (" y = 2 ", true)] in
  let k' := run_executes echo_engine calls fresh_kernel in
  hist_cache k' = ["x = 1"; "y = 2"]
  /\ List.length (hist_cache k') = 2
  /\ fst (do_shutdown false k') = Ok {| restart_flag := false |}
  /\ files (fs (snd (do_shutdown false k')))
       "/home/user/.ipython/profile_default/scilab_kernel.hist"
     = Some (join newline ["x = 1"; "y = 2"]).
Proof.
  pose proof (history_grows_shutdown_writes_last_entries echo_engine
                [("x = 1", false); (" y = 2 ", true)] fresh_kernel
                "/home/user/.ipython/profile_default/scilab_kernel.hist" false
                eq_refl eq_refl ltac:(repeat constructor))
    as (H1 & H2 & H3).
  split; [exact H1|]. split; [exact H2|]. split; [reflexivity|].
  exact (H3 _ eq_refl).
Defined.

(** C1 as stated fails: after 1001 recorded calls on a fresh kernel the
    in-memory history has 1001 entries, more than [max_hist_cache]. *)
Lemma history_cache_exceeds_cap :
  let calls := repeat ("x = 1", false) 1001 in
  let k' := run_executes echo_engine calls fresh_kernel in
  Forall (fun call => nonempty (text_strip (fst call)) = true) calls
  /\ ~ (Z.of_nat (List.length (hist_cache k')) <= max_hist_cache k')%Z.
Proof.
  intros calls k'.
  assert (Hne : Forall (fun call => nonempty (text_strip (fst call)) = true) calls).
  { apply Forall_forall. intros call Hin. apply repeat_spec in Hin. now subst. }
  split; [exact Hne|].
  destruct (run_executes_config echo_engine calls fresh_kernel) as (_ & _ & Hm).
  fold k' in Hm. rewrite Hm.
  unfold k'. rewrite (run_executes_hist_cache echo_engine calls fresh_kernel Hne).
  rewrite List.length_app, List.length_map. unfold calls. rewrite repeat_length.
  simpl. lia.
Qed.

(** *** Inputs answered without evaluation *)

(** C5: on input made of whitespace only, [do_execute] returns the ok reply
    with the execution counter it found and leaves the kernel, its history
    included, as it was, whatever [store_history] says.  Whitespace is what
    [strip()] removes from the text: \t to \r, \x1c to \x1f, the space,
    \x85 and \xa0. *)
Theorem do_execute_whitespace
  (E : engine) (code : string) (silent store_history : bool) (k : kernel) :
  all_chars text_isspace code = true ->
  do_execute E code silent store_history k = (Ok (ReplyOk (execution_count k)), k).
Proof.
  intros Hws.
  rewrite do_execute_returns_early by (left; apply strip_all_space, Hws).
  now rewrite (strip_all_space code Hws).
Qed.

Lemma do_execute_whitespace_witness :
  let code := String " " (String "009" (String LF (String "031"
                (String "133" (String "160" " "))))) in
  all_chars text_isspace code = true
  /\ do_execute echo_engine code false true fresh_kernel
     = (Ok (ReplyOk (execution_count fresh_kernel)), fresh_kernel).
Proof.
  split; [reflexivity|].
  apply (do_execute_whitespace echo_engine
           (String " " (String "009" (String LF (String "031"
              (String "133" (String "160" " ")))))) false true fresh_kernel).
  reflexivity.
Defined.

(** C6, as the code has it: when the trimmed input is [exit], [quit], or
    starts with [exit(] or [quit(], [do_execute] runs [do_shutdown(False)]
    once, on the kernel as line 80 left it: the trace gains one shutdown
    entry and one [close], and no restart.  It returns the abort reply when
    [do_shutdown] returns, which it does when no history file is set; when
    the history file cannot be opened, the IOError of [do_shutdown] leaves
    [do_execute] and there is no reply. *)
Theorem do_execute_exit_shuts_down_once
  (E : engine) (code : string) (silent store_history : bool) (k : kernel) :
  exit_form (text_strip code) ->
  let k1 := if store_history then record (text_strip code) k else k in
  do_execute E code silent store_history k
  = (match fst (do_shutdown false k1) with
     | Ok _ => Ok (ReplyAbort (execution_count k))
     | Raise e => Raise e
     end,
     snd (do_shutdown false k1))
  /\ trace (snd (do_execute E code silent store_history k))
     = (trace k ++ [EvLog "**Shutting down"; EvClose])%list
  /\ (hist_file_set k = None ->
      fst (do_execute E code silent store_history k)
      = Ok (ReplyAbort (execution_count k))).
Proof.
  intros Hexit k1.
  destruct (exit_form_test _ Hexit) as (Hne & Hkb & Hex).
  assert (Heq : do_execute E code silent store_history k
                = (match fst (do_shutdown false k1) with
                   | Ok _ => Ok (ReplyAbort (execution_count k))
                   | Raise e => Raise e
                   end,
                   snd (do_shutdown false k1))).
  { unfold do_execute. cbv zeta. rewrite Hkb, Hex, Hne. simpl andb.
    fold k1. now destruct (do_shutdown false k1) as [[r|e] k2]. }
  rewrite Heq. cbn [fst snd]. split; [reflexivity|]. split.
  - rewrite do_shutdown_trace. unfold k1. now destruct store_history.
  - intros Hnone. rewrite do_shutdown_unfold. cbv zeta.
    assert (Hk1 : hist_file_set k1 = None)
      by (unfold k1; now destruct store_history).
    now rewrite Hk1.
Qed.

Lemma do_execute_exit_shuts_down_once_witness :
  exit_form (text_strip " exit() ")
  /\ do_execute echo_engine " exit() " false true fresh_kernel
     = (Ok (ReplyAbort 0), snd (do_shutdown false (record "exit()" fresh_kernel))).
Proof.
  split; [right; left; reflexivity|].
  exact (proj1 (do_execute_exit_shuts_down_once echo_engine " exit() " false true
                  fresh_kernel (or_intror (or_introl eq_refl)))).
Defined.

(** C6 as stated fails: where the path of the history file is a directory,
    [open] fails in [do_shutdown] and [exit] gets no reply, abort or
    other. *)
Lemma exit_without_reply :
  let k := __init__ (Some profile_dir) blocked_fs in
  exit_form (text_strip "exit")
  /\ fst (do_execute echo_engine "exit" false true k) = Raise IOError
  /\ forall reply, fst (do_execute echo_engine "exit" false true k) <> Ok reply.
Proof.
  split; [left; reflexivity|]. split; [reflexivity|]. discriminate.
Qed.

(** C9, as the code has it: when the trimmed input is empty, [keyboard], or
    starts with [keyboard(], [do_execute] returns the ok reply without an
    engine call, stream output, file write or session change (the trace and
    the file system are untouched); the history is unchanged when the
    trimmed input is empty or [store_history] is off, and otherwise gains
    the trimmed input as its last entry. *)
Theorem do_execute_empty_or_breakpoint
  (E : engine) (code : string) (silent store_history : bool) (k : kernel) :
  text_strip code = EmptyString \/ keyboard_form (text_strip code) ->
  let reply := fst (do_execute E code silent store_history k) in
  let k' := snd (do_execute E code silent store_history k) in
  reply = Ok (ReplyOk (execution_count k))
  /\ trace k' = trace k
  /\ fs k' = fs k
  /\ execution_count k' = execution_count k
  /\ hist_file k' = hist_file k
  /\ max_hist_cache k' = max_hist_cache k
  /\ hist_cache k'
     = if nonempty (text_strip code) && store_history
       then (hist_cache k ++ [text_strip code])%list else hist_cache k.
Proof.
  intros H. cbv zeta. rewrite (do_execute_returns_early E code silent store_history k H).
  destruct (nonempty (text_strip code) && store_history); repeat split.
Qed.

Lemma do_execute_empty_or_breakpoint_witness :
  keyboard_form (text_strip "keyboard(1)")
  /\ fst (do_execute echo_engine "keyboard(1)" false false fresh_kernel)
     = Ok (ReplyOk 0)
  /\ snd (do_execute echo_engine "keyboard(1)" false false fresh_kernel) = fresh_kernel.
Proof.
  split; [right; reflexivity|].
  pose proof (do_execute_empty_or_breakpoint echo_engine "keyboard(1)" false false
                fresh_kernel (or_intror (or_intror eq_refl))) as H.
  split; [exact (proj1 H) | reflexivity].
Defined.

(** C9 as stated fails: [keyboard] with [store_history] on is appended to
    the history before the ok reply. *)
Lemma breakpoint_is_recorded :
  keyboard_form (text_strip "keyboard")
  /\ fst (do_execute echo_engine "keyboard" false true fresh_kernel)
     = Ok (ReplyOk 0)
  /\ hist_cache (snd (do_execute echo_engine "keyboard" false true fresh_kernel))
     <> hist_cache fresh_kernel.
Proof.
  split; [left; reflexivity|]. split; [reflexivity|]. discriminate.
Qed.

(** *** Completion *)

(** With the cursor inside the buffer, [char_before_cursor] is the byte at
    index [cursor_pos - 1]. *)
Lemma char_before_cursor_in_range (code : string) (cursor_pos : Z) :
  (0 < cursor_pos <= Z.of_nat (String.length code))%Z ->
  char_before_cursor code cursor_pos = String.get (Z.to_nat (cursor_pos - 1)) code.
Proof.
  intros H. unfold char_before_cursor, slice_to, clip.
  destruct (Z.ltb_spec cursor_pos 0); [lia|].
  rewrite Z.min_l by lia.
  replace (Z.to_nat cursor_pos) with (S (Z.to_nat (cursor_pos - 1))) by lia.
  apply last_char_take_get. lia.
Qed.

(** C2, as the code has it: when the byte before the cursor is a space,
    [do_complete] returns its default reply, with no matches, [cursor_start]
    0 and [cursor_end] the cursor position, and changes nothing. *)
Theorem do_complete_after_space
  (E : engine) (code : string) (cursor_pos : Z) (k : kernel) :
  char_before_cursor code cursor_pos = Some " "%char ->
  do_complete E code cursor_pos k
  = (Ok {| matches := []; cursor_start := 0; cursor_end := cursor_pos |}, k).
Proof.
  unfold char_before_cursor, do_complete. cbv zeta. intros ->. reflexivity.
Qed.

Lemma do_complete_after_space_witness :
  char_before_cursor "plot " 5 = Some " "%char
  /\ do_complete echo_engine "plot " 5 fresh_kernel
     = (Ok {| matches := []; cursor_start := 0; cursor_end := 5 |}, fresh_kernel).
Proof.
  split; [reflexivity|].
  apply (do_complete_after_space echo_engine "plot " 5 fresh_kernel).
  reflexivity.
Defined.

(** C2 as stated fails: after ["plot "] with the cursor at 5 the reply has
    [cursor_start] 0, not 5. *)
Lemma do_complete_after_space_start_is_zero :
  char_before_cursor "plot " 5 = Some " "%char
  /\ exists r,
       fst (do_complete echo_engine "plot " 5 fresh_kernel) = Ok r
       /\ matches r = []
       /\ cursor_end r = 5%Z
       /\ cursor_start r <> 5%Z.
Proof.
  split; [reflexivity|].
  eexists. split; [reflexivity|]. repeat split. discriminate.
Qed.

Lemma slice_to_zero (code : string) : slice_to code 0 = EmptyString.
Proof. unfold slice_to, clip. simpl. now rewrite Z.min_l by lia. Qed.

Lemma last_char_none (s : string) : last_char s = None <-> s = EmptyString.
Proof.
  split; [|now intros ->].
  induction s as [|c s IH]; [reflexivity|].
  simpl. destruct s; [discriminate | intros H; now specialize (IH H)].
Qed.

(** C10: when the text before the cursor is empty, [do_complete] fails with
    IndexError at [code[-1]] and returns no reply; a cursor at 0 is such a
    call. *)
Theorem do_complete_empty_prefix_raises
  (E : engine) (code : string) (cursor_pos : Z) (k : kernel) :
  slice_to code cursor_pos = EmptyString ->
  do_complete E code cursor_pos k = (Raise IndexError, k)
  /\ do_complete E code 0 k = (Raise IndexError, k).
Proof.
  intros H. unfold do_complete. cbv zeta.
  rewrite H, slice_to_zero. split; reflexivity.
Qed.

Lemma do_complete_empty_prefix_raises_witness :
  slice_to "plot" (-7) = EmptyString
  /\ do_complete echo_engine "plot" (-7) fresh_kernel = (Raise IndexError, fresh_kernel)
  /\ do_complete echo_engine "plot" 0 fresh_kernel = (Raise IndexError, fresh_kernel).
Proof.
  split; [reflexivity|].
  apply (do_complete_empty_prefix_raises echo_engine "plot" (-7) fresh_kernel).
  reflexivity.
Defined.

(** The IndexError has no other source. *)
Lemma do_complete_index_error_only_when_empty
  (E : engine) (code : string) (cursor_pos : Z) (k : kernel) :
  fst (do_complete E code cursor_pos k) = Raise IndexError ->
  slice_to code cursor_pos = EmptyString.
Proof.
  unfold do_complete. cbv zeta.
  destruct (last_char (slice_to code cursor_pos)) as [c|] eqn:Hl;
    [|intros _; now apply last_char_none].
  destruct (Ascii.eqb c " "); [discriminate|].
  destruct (text_split _); [discriminate|].
  destruct (contains "/" _).
  - destruct (path_exists _ _); [|discriminate].
    destruct (dirs _ _); discriminate.
  - destruct (eng_eval E _ _) as [v| | |]; try discriminate.
    destruct (negb (py_truth v)); [discriminate|].
    destruct v; discriminate.
Qed.

(** *** Error replies *)

(** C3, as the code has it: [_handle_error] categorizes the raw text in
    priority order: "Parse Error" when it contains [parse error:]; else the
    text after the first [Scilab returned:], without leading whitespace;
    else "Syntax Error" when it contains [Syntax Error]; else the raw text
    unchanged.  The reply is an error reply with the execution counter, an
    empty [ename], that message as [evalue] and an empty traceback; the text
    sent to stdout is that message trimmed. *)
Theorem handle_error_reply (err : string) (k : kernel) :
  categorized err (categorize err)
  /\ _handle_error err k
     = (ReplyError (execution_count k) EmptyString (categorize err) [],
        send_stdout (strip (categorize err)) k).
Proof. split; [apply categorize_spec | reflexivity]. Qed.

(** C3 as stated fails: a raw text with none of the markers and outer
    whitespace is kept untrimmed in [evalue]. *)
Lemma handle_error_evalue_untrimmed :
  let err := " undefined variable " in
  contains parse_marker err = false
  /\ contains returned_marker err = false
  /\ contains syntax_marker err = false
  /\ fst (_handle_error err fresh_kernel)
     <> ReplyError (execution_count fresh_kernel) EmptyString (strip err) [].
Proof. repeat split. discriminate. Qed.

(** *** The underscore shorthand *)

Example re_sub_identifier : Underscore.re_sub "x_y" = "x_y".
Proof. reflexivity. Qed.

Example re_sub_isolated :
  Underscore.re_sub "a = _ + 1" = "a = last_kernel_value + 1".
Proof. reflexivity. Qed.

(** C4 at the input [_+_], two standalone underscores with one byte between
    them: the pattern consumes the [+] with the first underscore, so the
    second is not matched, and the command handed to Scilab is
    [last_kernel_value+_], whatever the session and the kernel, where the
    word-boundary rule gives [last_kernel_value+last_kernel_value]. *)
Theorem second_underscore_not_rewritten
  (E : engine) (silent store_history : bool) (k : kernel) :
  Underscore.re_sub "_+_" = "last_kernel_value+_"
  /\ Underscore.word_boundary_sub "_+_" = "last_kernel_value+last_kernel_value"
  /\ exists rest,
       trace (snd (do_execute E "_+_" silent store_history k))
       = (trace k ++ EvEval ["last_kernel_value+_"] :: rest)%list.
Proof.
  split; [reflexivity|]. split; [reflexivity|].
  unfold do_execute. cbv zeta.
  change (text_strip "_+_") with "_+_".
  change (nonempty "_+_") with true.
  change (Underscore.re_sub "_+_") with "last_kernel_value+_".
  cbn [negb andb orb String.eqb Ascii.eqb Bool.eqb startswith endswith contains
       find option_map String.length Nat.leb Nat.sub drop].
  set (k1 := if store_history then record "_+_" k else k).
  assert (Ht : trace k1 = trace k) by (unfold k1; now destruct store_history).
  destruct (eng_eval E (trace k1) ["last_kernel_value+_"]) as [v| |msg|].
  - destruct (_handle_output v silent (emit (EvEval ["last_kernel_value+_"]) k1))
      as [out k2] eqn:Ho.
    assert (Hk2 : exists rest,
               trace k2 = (trace k ++ EvEval ["last_kernel_value+_"] :: rest)%list).
    { rewrite <- Ht. destruct v, silent; injection Ho as _ <-; simpl;
        rewrite <- ?List.app_assoc; simpl; eauto. }
    destruct (String.eqb out interrupted_text); exact Hk2.
  - simpl. rewrite Ht, <- List.app_assoc. simpl. eauto.
  - simpl. rewrite Ht, <- List.app_assoc. simpl. eauto.
  - simpl. rewrite Ht, <- List.app_assoc. simpl. eauto.
Qed.

(** *** Saving and loading the history *)

(** C7 at a history of two commands: [do_shutdown] writes them joined by a
    newline, and [do_history] in the next session returns the first with the
    newline still attached, so the sequence read is not the sequence
    written; saved again, the file has gained a blank line. *)
Theorem history_roundtrip_keeps_terminators :
  let k := run_executes echo_engine [("x = 1", false); ("y = 2", false)] fresh_kernel in
  let saved := fs (snd (do_shutdown false k)) in
  let next := __init__ (Some profile_dir) saved in
  let saved_again := fs (snd (do_shutdown false (snd (do_history next)))) in
  hist_cache k = ["x = 1"; "y = 2"]
  /\ files saved (path_join profile_dir "scilab_kernel.hist")
     = Some ("x = 1" ++ newline ++ "y = 2")
  /\ fst (do_history next)
     = Ok [(None, None, "x = 1" ++ newline); (None, None, "y = 2")]
  /\ files saved_again (path_join profile_dir "scilab_kernel.hist")
     = Some ("x = 1" ++ newline ++ newline ++ "y = 2").
Proof. vm_compute. repeat split. Qed.

(** *** Silent mode *)

(** C8 at a silent call whose evaluation Scilab rejects: [_handle_error]
    does not look at [silent], and the error text goes to stdout. *)
Theorem silent_error_is_streamed (msg : string) (store_history : bool) (k : kernel) :
  do_execute (rejecting_engine msg) "1/0" true store_history k
  = (Ok (ReplyError (execution_count k) EmptyString (categorize msg) []),
     send_stdout (strip (categorize msg))
       (emit (EvEval ["1/0"]) (if store_history then record "1/0" k else k))).
Proof. destruct store_history; reflexivity. Qed.

End Properties.

(** ** More facts: trimming, traces, tokens *)

Module MoreFacts.
Import PyStr PyStrFacts Kernel Scenario Session KernelFacts HistoryFacts.

Lemma rstrip_last s c : last_char (text_rstrip s) = Some c -> text_isspace c = false.
Proof.
  induction s as [|c0 s IH]; [discriminate|].
  cbn [text_rstrip]. destruct (text_rstrip s) as [|a r] eqn:Hr.
  - destruct (text_isspace c0) eqn:Hc; [discriminate|].
    intros [= <-]. exact Hc.
  - intros H. apply IH. exact H.
Qed.

Lemma rstrip_fixed u :
  (forall c, last_char u = Some c -> text_isspace c = false) -> text_rstrip u = u.
Proof.
  induction u as [|c0 u IH]; [reflexivity|].
  intros H. cbn [text_rstrip]. destruct u as [|a r].
  - cbn [text_rstrip]. now rewrite (H c0 eq_refl).
  - rewrite IH; [reflexivity|]. intros c Hc. apply H. exact Hc.
Qed.

Lemma lstrip_first s c r : text_lstrip s = String c r -> text_isspace c = false.
Proof.
  induction s as [|c0 s IH]; [discriminate|].
  cbn [text_lstrip]. destruct (text_isspace c0) eqn:Hc; [exact IH|].
  intros [= <- _]. exact Hc.
Qed.

Lemma lstrip_fixed c r : text_isspace c = false -> text_lstrip (String c r) = String c r.
Proof. intros H. cbn [text_lstrip]. now rewrite H. Qed.

Lemma last_char_cons c s :
  nonempty s = true -> last_char (String c s) = last_char s.
Proof. destruct s; [discriminate | reflexivity]. Qed.

Lemma last_char_lstrip s :
  nonempty (text_lstrip s) = true -> last_char (text_lstrip s) = last_char s.
Proof.
  induction s as [|c s IH]; [discriminate|].
  cbn [text_lstrip]. destruct (text_isspace c); [|reflexivity].
  intros H. rewrite (IH H). symmetry. apply last_char_cons.
  destruct s; [discriminate | reflexivity].
Qed.

(** Trimmed text neither starts nor ends with whitespace. *)
Lemma strip_ends s c r :
  text_strip s = String c r ->
  text_isspace c = false
  /\ exists d, last_char (text_strip s) = Some d /\ text_isspace d = false.
Proof.
  unfold text_strip. intros H. split; [eapply lstrip_first, H|].
  assert (Hne : nonempty (text_lstrip (text_rstrip s)) = true) by now rewrite H.
  rewrite (last_char_lstrip _ Hne).
  destruct (last_char (text_rstrip s)) as [d|] eqn:Hd.
  - exists d. split; [reflexivity | eapply rstrip_last, Hd].
  - apply Properties.last_char_none in Hd. rewrite Hd in H. discriminate.
Qed.

Lemma strip_idempotent s : text_strip (text_strip s) = text_strip s.
Proof.
  destruct (text_strip s) as [|c r] eqn:Hs; [reflexivity|].
  destruct (strip_ends s c r Hs) as [Hc (d & Hd & Hsp)].
  rewrite Hs in Hd. unfold text_strip.
  rewrite rstrip_fixed; [apply lstrip_fixed, Hc|].
  intros c' Hc'. congruence.
Qed.

(** *** Traces only grow *)

Lemma extends_refl {A : Type} (l : list A) : extends l l.
Proof. exists []. now rewrite List.app_nil_r. Qed.

Lemma extends_trans {A : Type} (l1 l2 l3 : list A) :
  extends l1 l2 -> extends l2 l3 -> extends l1 l3.
Proof.
  intros [a ->] [b ->]. exists (a ++ b)%list. now rewrite List.app_assoc.
Qed.

Lemma extends_emit e k : extends (trace k) (trace (emit e k)).
Proof. now exists [e]. Qed.

Lemma text_split_from_nonempty tok s :
  Forall (fun t => nonempty t = true) (text_split_from tok s).
Proof.
  revert tok. induction s as [|c s IH]; intros tok; cbn [text_split_from].
  - destruct (nonempty tok) eqn:Hne; repeat constructor. exact Hne.
  - destruct (text_isspace c); [|apply IH].
    destruct (nonempty tok) eqn:Hne; [constructor; [exact Hne|]|]; apply IH.
Qed.

Lemma last_token_nonempty (tokens : list string) :
  Forall (fun t => nonempty t = true) tokens ->
  nonempty (PyList.last_item tokens EmptyString)
  = match tokens with [] => false | _ :: _ => true end.
Proof.
  unfold PyList.last_item. induction tokens as [|t ts IH]; [reflexivity|].
  intros H. inversion H as [|? ? Ht Hts]; subst.
  destruct ts as [|t' ts]; [exact Ht|].
  change (List.last (t :: t' :: ts) EmptyString)
    with (List.last (t' :: ts) EmptyString).
  exact (IH Hts).
Qed.

(** What [_get_help] does: nothing without a token; else it asks whether
    the last token exists, and where it does, opens the help and sends the
    notice. *)
Lemma get_help_effect E code k :
  let t := help_token code in
  fs (_get_help E code k) = fs k
  /\ trace (_get_help E code k)
     = (trace k
        ++ if nonempty t then
             EvExists t
             :: (if (eng_exists E (trace k) t =? 0)%Z then []
                 else [EvHelp t;
                       EvStream "stdout" ("Calling Help Browser for `" ++ t ++ "`")])
           else [])%list.
Proof.
  cbv zeta. unfold _get_help, help_token. cbv zeta.
  pose proof (last_token_nonempty _
                (text_split_from_nonempty EmptyString
                   (replace ";"%char " " (replace "?"%char EmptyString code))))
    as Hne.
  fold (text_split (replace ";"%char " " (replace "?"%char EmptyString code))) in Hne.
  rewrite Hne.
  destruct (text_split _) as [|t0 ts].
  - split; [reflexivity | now rewrite List.app_nil_r].
  - set (t := PyList.last_item (t0 :: ts) EmptyString).
    destruct (eng_exists E (trace k) t =? 0)%Z; cbn [negb].
    + split; reflexivity.
    + split; [reflexivity|]. simpl. now rewrite <- !List.app_assoc.
Qed.

Section WithEngine.

Variable E : engine.

Lemma restart_form_test c :
  restart_form c ->
  nonempty c = true
  /\ (negb (nonempty c) || String.eqb c "keyboard" || startswith "keyboard(" c) = false
  /\ (String.eqb c "exit" || startswith "exit(" c
      || String.eqb c "quit" || startswith "quit(" c) = false
  /\ (String.eqb c "restart" || startswith "restart(" c) = true.
Proof.
  intros [-> | H]; [repeat split; reflexivity|].
  destruct (starts_with_head _ _ _ H) as [c' ->].
  repeat split; try reflexivity.
  rewrite H. apply orb_true_r.
Qed.

Lemma help_query_tests c :
  help_query c = true ->
  nonempty c = true
  /\ (negb (nonempty c) || String.eqb c "keyboard" || startswith "keyboard(" c) = false
  /\ (String.eqb c "exit" || startswith "exit(" c
      || String.eqb c "quit" || startswith "quit(" c) = false
  /\ (String.eqb c "restart" || startswith "restart(" c) = false
  /\ (endswith "?" c || startswith "?" c) = true.
Proof.
  unfold help_query. intros H.
  repeat (apply andb_true_iff in H as [H ?]).
  repeat match goal with
         | Hn : negb _ = true |- _ => apply negb_true_iff in Hn
         end.
  repeat split; try assumption.
  destruct (nonempty c); [reflexivity | discriminate].
Qed.

Lemma do_execute_help code silent (store_history : bool) k :
  help_query (text_strip code) = true ->
  do_execute E code silent store_history k
  = (Ok (ReplyAbort (execution_count k)),
     _get_help E (text_strip code)
       (if store_history then record (text_strip code) k else k)).
Proof.
  intros H. destruct (help_query_tests _ H) as (Hne & H1 & H2 & H3 & H4).
  unfold do_execute. cbv zeta. rewrite H1, H2, H3, H4, Hne. reflexivity.
Qed.

(** An input that is evaluated is evaluated once. *)
Lemma do_execute_evaluates_once code silent (store_history : bool) k :
  evaluated (text_strip code) = true ->
  exists rest,
    trace (snd (do_execute E code silent store_history k))
    = (trace k ++ EvEval [submitted (text_strip code)] :: rest)%list
    /\ existsb is_eval rest = false.
Proof.
  intros Hev. rewrite (do_execute_evaluated E code silent store_history k Hev).
  cbv zeta. rewrite record_trace.
  destruct (eng_eval E (trace k) [submitted (text_strip code)]) as [v| |msg|];
    cbn [snd].
  - rewrite handle_output_trace. cbn [snd].
    exists (output_puts v
            ++ if silent then [] else [EvStream "stdout" (output_text v)])%list.
    split.
    + destruct silent; [|unfold send_stdout; simpl trace];
        rewrite trace_emit_all; simpl trace;
        rewrite record_trace, <- ?List.app_assoc; simpl;
        now rewrite ?List.app_nil_r.
    + now destruct v, silent.
  - exists [EvSendSigint]. split; [|reflexivity].
    simpl. now rewrite record_trace, <- List.app_assoc.
  - exists [EvStream "stdout" (strip (categorize msg))]. split; [|reflexivity].
    simpl. now rewrite record_trace, <- List.app_assoc.
  - exists [EvRestart]. split; [|reflexivity].
    simpl. now rewrite record_trace, <- List.app_assoc.
Qed.

End WithEngine.

(** *** Tokens *)

Lemma replace_semicolon_cons c s :
  replace ";"%char " " (String c s)
  = String (if Ascii.eqb c ";"%char then " "%char else c) (replace ";"%char " " s).
Proof. cbn [replace]. now destruct (Ascii.eqb c ";"). Qed.

Lemma replace_semicolon_length s :
  String.length (replace ";"%char " " s) = String.length s.
Proof.
  induction s as [|c s IH]; [reflexivity|].
  rewrite replace_semicolon_cons. simpl. now rewrite IH.
Qed.

Lemma split_from_separator tok c s :
  text_split_from tok (replace ";"%char " " (String c s))
  = if is_separator c then
      if nonempty tok then tok :: text_split_from EmptyString (replace ";"%char " " s)
      else text_split_from EmptyString (replace ";"%char " " s)
    else text_split_from (tok ++ String c EmptyString) (replace ";"%char " " s).
Proof.
  rewrite replace_semicolon_cons. unfold is_separator. cbn [text_split_from].
  destruct (Ascii.eqb c ";") eqn:Hc.
  - rewrite orb_true_r. reflexivity.
  - rewrite orb_false_r. reflexivity.
Qed.

Lemma split_from_lengths tok s :
  Forall (fun t => String.length t <= String.length tok + String.length s)
    (text_split_from tok s).
Proof.
  revert tok. induction s as [|c s IH]; intros tok; cbn [text_split_from].
  - destruct (nonempty tok); repeat constructor. simpl. lia.
  - assert (Hrest : Forall (fun t => String.length t
                                     <= String.length tok + String.length (String c s))
                      (text_split_from EmptyString s)).
    { eapply Forall_impl; [|apply IH]. simpl. intros t Ht. lia. }
    destruct (text_isspace c).
    + destruct (nonempty tok); [constructor; [simpl; lia|]|]; exact Hrest.
    + eapply Forall_impl; [|apply IH]. intros t Ht.
      rewrite length_app in Ht. simpl in *. lia.
Qed.

Lemma last_in {A : Type} (l : list A) (d : A) : l <> [] -> In (List.last l d) l.
Proof.
  induction l as [|x l IH]; [congruence|]. intros _.
  destruct l as [|y l]; [now left|].
  right. apply IH. discriminate.
Qed.

Lemma last_cons_nonempty {A : Type} (x : A) (l : list A) (d : A) :
  l <> [] -> List.last (x :: l) d = List.last l d.
Proof. destruct l; [congruence | reflexivity]. Qed.

Lemma token_length text :
  String.length (PyList.last_item (text_split text) EmptyString) <= String.length text.
Proof.
  unfold PyList.last_item, text_split.
  destruct (text_split_from EmptyString text) as [|t ts] eqn:Hs; [simpl; lia|].
  pose proof (split_from_lengths EmptyString text) as H. rewrite Hs in H.
  rewrite Forall_forall in H. apply (H (List.last (t :: ts) EmptyString)).
  apply last_in. discriminate.
Qed.

Lemma length_take_le n s : String.length (take n s) <= n.
Proof.
  revert s. induction n as [|n IH]; intros s; [simpl; lia|].
  destruct s as [|c s]; simpl; [lia|]. specialize (IH s). lia.
Qed.

Lemma slice_to_length code cursor_pos :
  (0 <= cursor_pos)%Z ->
  (Z.of_nat (String.length (slice_to code cursor_pos)) <= cursor_pos)%Z.
Proof.
  intros H. unfold slice_to, clip.
  destruct (Z.ltb_spec cursor_pos 0); [lia|].
  pose proof (length_take_le
                (Z.to_nat (Z.min cursor_pos (Z.of_nat (String.length code)))) code).
  lia.
Qed.

Lemma completion_token_length code cursor_pos :
  (0 <= cursor_pos)%Z ->
  (Z.of_nat (String.length (completion_token code cursor_pos)) <= cursor_pos)%Z.
Proof.
  intros H. unfold completion_token.
  pose proof (token_length (replace ";"%char " " (slice_to code cursor_pos))) as Ht.
  rewrite replace_semicolon_length in Ht.
  pose proof (slice_to_length code cursor_pos H). lia.
Qed.

Lemma path_cut_app p : p = fst (path_cut p) ++ snd (path_cut p).
Proof.
  induction p as [|c p IH]; [reflexivity|].
  cbn [path_cut]. destruct (path_cut p) as [h t]. cbn [fst snd] in IH.
  destruct h as [|a h]; cbn [nonempty].
  - simpl in IH. subst t. destruct (Ascii.eqb c "/"); reflexivity.
  - cbn [fst snd]. rewrite IH at 1. reflexivity.
Qed.

Lemma basename_length p : String.length (basename p) <= String.length p.
Proof.
  unfold basename. rewrite (path_cut_app p) at 2. rewrite length_app. lia.
Qed.

Lemma last_char_app a b :
  nonempty b = true -> last_char (a ++ b) = last_char b.
Proof.
  intros H. induction a as [|c a IH]; [reflexivity|].
  simpl append. rewrite last_char_cons; [exact IH|].
  destruct a; [exact H | reflexivity].
Qed.

Lemma separator_free_snoc tok c :
  separator_free tok -> is_separator c = false ->
  separator_free (tok ++ String c EmptyString).
Proof.
  unfold separator_free. intros H Hc. induction tok as [|a tok IH]; simpl in *.
  - now rewrite Hc.
  - apply andb_true_iff in H as [Ha H]. rewrite Ha. now apply IH.
Qed.

(** The last token of a text that does not end with a separator is the
    longest separator-free text it ends with. *)
Lemma last_token_suffix s :
  forall tok c,
    separator_free tok ->
    last_char (tok ++ s) = Some c -> is_separator c = false ->
    exists pre t,
      tok ++ s = pre ++ t
      /\ List.last (text_split_from tok (replace ";"%char " " s)) EmptyString = t
      /\ nonempty t = true
      /\ separator_free t
      /\ (pre = EmptyString
          \/ exists d, last_char pre = Some d /\ is_separator d = true).
Proof.
  induction s as [|c0 s IH]; intros tok c Htok Hlast Hc.
  - rewrite app_empty_r in Hlast. exists EmptyString, tok.
    assert (Hne : nonempty tok = true) by (destruct tok; [discriminate | reflexivity]).
    cbn [replace text_split_from]. rewrite Hne, app_empty_r.
    repeat split; auto.
  - rewrite split_from_separator. destruct (is_separator c0) eqn:Hsep.
    + assert (Hs : nonempty s = true).
      { destruct s; [|reflexivity].
        rewrite last_char_app in Hlast by reflexivity.
        injection Hlast as <-. congruence. }
      assert (Hlast' : last_char (EmptyString ++ s) = Some c).
      { rewrite last_char_app in Hlast by reflexivity.
        rewrite last_char_cons in Hlast by exact Hs. exact Hlast. }
      destruct (IH EmptyString c eq_refl Hlast' Hc)
        as (pre & t & Heq & Ht & Hne & Hfree & Hpre).
      simpl in Heq.
      exists (tok ++ String c0 pre), t.
      assert (Hl : text_split_from EmptyString (replace ";"%char " " s) <> []).
      { intros Hnil. rewrite Hnil in Ht. simpl in Ht. subst t. discriminate. }
      repeat split; auto.
      * rewrite app_assoc. simpl. now rewrite Heq.
      * destruct (nonempty tok); [rewrite last_cons_nonempty by exact Hl|]; exact Ht.
      * right. destruct Hpre as [-> | (d & Hd & Hdsep)].
        -- exists c0. split; [|exact Hsep]. now rewrite last_char_app.
        -- exists d. split; [|exact Hdsep].
           rewrite last_char_app by reflexivity.
           rewrite last_char_cons; [exact Hd|].
           destruct pre; [discriminate | reflexivity].
    + assert (Heq : tok ++ String c0 s = (tok ++ String c0 EmptyString) ++ s)
        by now rewrite app_assoc.
      rewrite Heq in *.
      apply (IH _ c); auto. now apply separator_free_snoc.
Qed.

Lemma mem_In x l : mem x l = true <-> In x l.
Proof.
  unfold mem. rewrite existsb_exists. split.
  - intros (y & Hy & Heq). apply String.eqb_eq in Heq. now subst.
  - intros H. exists x. split; [exact H | apply String.eqb_refl].
Qed.

(** The loop over [dir(scilab_wrapper)]: the matches found so far stay in
    front, and what is added is each attribute that starts with the token
    and is not among them, once. *)
Lemma add_attributes_spec token attrs :
  forall found,
  exists extra,
    add_attributes token attrs found = (found ++ extra)%list
    /\ NoDup extra
    /\ forall x, In x extra
                 <-> In x attrs /\ startswith token x = true /\ ~ In x found.
Proof.
  unfold add_attributes.
  induction attrs as [|a attrs IH]; intros found; cbn [fold_left].
  - exists []. rewrite List.app_nil_r. split; [reflexivity|].
    split; [constructor|]. intros x. split; [intros [] | now intros [[] _]].
  - destruct (startswith token a && negb (mem a found)) eqn:Hadd.
    + apply andb_true_iff in Hadd as [Hsw Hmem].
      apply negb_true_iff in Hmem.
      assert (Hnot : ~ In a found).
      { intros Hin. apply mem_In in Hin. congruence. }
      destruct (IH (found ++ [a])%list) as (extra & Heq & Hnd & Hin).
      exists (a :: extra). split; [|split].
      * rewrite Heq, <- List.app_assoc. reflexivity.
      * constructor; [|exact Hnd]. intros Ha. apply Hin in Ha as (_ & _ & Ha).
        apply Ha. apply in_or_app. right. now left.
      * intros x. split.
        -- intros [<- | Hx]; [repeat split; auto; now left|].
           apply Hin in Hx as (Hx1 & Hx2 & Hx3). repeat split; auto.
           ++ now right.
           ++ intros Hf. apply Hx3. apply in_or_app. now left.
        -- intros ([<- | Hx1] & Hx2 & Hx3); [now left|].
           destruct (string_dec a x) as [-> | Hne]; [now left|].
           right. apply Hin. repeat split; auto.
           intros Hf. apply in_app_or in Hf as [Hf | [Hf | []]]; auto.
    + destruct (IH found) as (extra & Heq & Hnd & Hin).
      exists extra. split; [exact Heq|]. split; [exact Hnd|].
      intros x. rewrite Hin. split.
      * intros (Hx1 & Hx2 & Hx3). repeat split; auto. now right.
      * intros ([<- | Hx1] & Hx2 & Hx3); [|now repeat split].
        exfalso. rewrite Hx2 in Hadd. cbn [andb] in Hadd.
        apply negb_false_iff in Hadd. apply mem_In in Hadd. contradiction.
Qed.

(** *** The version pattern *)

Lemma number_tail_spec n :
  forall r,
    String.length r <= n ->
    (exists rest, r = Version.number_tail r ++ rest)
    /\ all_chars (fun c => Version.isdigit c || Version.is_dot c)
         (Version.number_tail r) = true
    /\ (forall c, last_char (Version.number_tail r) = Some c ->
                  Version.isdigit c = true).
Proof.
  induction n as [|n IH]; intros r Hlen.
  - destruct r; [|simpl in Hlen; lia].
    repeat split; [now exists EmptyString | discriminate].
  - destruct r as [|c r1]; [repeat split; [now exists EmptyString | discriminate]|].
    simpl in Hlen. cbn [Version.number_tail].
    destruct (Version.isdigit c) eqn:Hd.
    + destruct (IH r1 ltac:(lia)) as ((rest & Hr) & Hall & Hlast).
      split; [exists rest; simpl; now rewrite <- Hr|].
      split; [cbn [all_chars]; now rewrite Hd, Hall|].
      intros c'. destruct (Version.number_tail r1) as [|a t] eqn:Ht.
      * intros [= <-]. exact Hd.
      * intros H. apply Hlast. exact H.
    + destruct (Version.is_dot c) eqn:Hdot;
        [|repeat split; [now exists (String c r1) | discriminate]].
      destruct r1 as [|d r2];
        [repeat split; [now exists (String c EmptyString) | discriminate]|].
      destruct (Version.isdigit d) eqn:Hd2;
        [|repeat split; [now exists (String c (String d r2)) | discriminate]].
      simpl in Hlen.
      destruct (IH r2 ltac:(lia)) as ((rest & Hr) & Hall & Hlast).
      split; [exists rest; simpl; now rewrite <- Hr|].
      split; [cbn [all_chars]; now rewrite Hdot, Hd2, Hall, orb_true_r|].
      intros c'. destruct (Version.number_tail r2) as [|a t] eqn:Ht.
      * intros [= <-]. exact Hd2.
      * intros H. apply Hlast. exact H.
Qed.

Lemma version_at_spec s v :
  Version.version_at s = Some v ->
  Version.dotted_number v
  /\ exists post, s = Version.version_prefix ++ v ++ post.
Proof.
  unfold Version.version_at.
  destruct (startswith Version.version_prefix s) eqn:Hp; [|discriminate].
  apply startswith_split in Hp.
  destruct (drop (String.length Version.version_prefix) s) as [|d r] eqn:Hdrop;
    [discriminate|].
  destruct (Version.isdigit d) eqn:Hd; [|discriminate].
  cbv zeta. destruct (contains "." (String d (Version.number_tail r))) eqn:Hdot;
    [|discriminate].
  intros [= <-].
  destruct (number_tail_spec (String.length r) r (le_n _))
    as ((rest & Hr) & Hall & Hlast).
  split.
  - split; [cbn [all_chars]; now rewrite Hd, Hall|].
    split; [now exists d, (Version.number_tail r)|].
    split; [|exact Hdot].
    destruct (Version.number_tail r) as [|a t] eqn:Ht.
    + now exists d.
    + destruct (last_char (String a t)) as [c|] eqn:Hc.
      * exists c. split; [exact Hc | now apply Hlast].
      * apply Properties.last_char_none in Hc. discriminate.
  - exists rest. rewrite Hp at 1. f_equal. simpl. now rewrite <- Hr.
Qed.

Lemma version_search_spec s v :
  Version.version_search s = Some v ->
  Version.dotted_number v
  /\ exists pre post, s = pre ++ Version.version_prefix ++ v ++ post.
Proof.
  induction s as [|c s IH].
  - cbn [Version.version_search].
    destruct (Version.version_at EmptyString) eqn:Ha; [|discriminate].
    intros [= <-]. destruct (version_at_spec _ _ Ha) as [Hv (post & Hs)].
    split; [exact Hv|]. now exists EmptyString, post.
  - cbn [Version.version_search].
    destruct (Version.version_at (String c s)) as [v'|] eqn:Ha.
    + intros [= <-]. destruct (version_at_spec _ _ Ha) as [Hv (post & Hs)].
      split; [exact Hv|]. now exists EmptyString, post.
    + intros H. destruct (IH H) as [Hv (pre & post & Hs)].
      split; [exact Hv|]. exists (String c pre), post. simpl. now rewrite Hs.
Qed.

(** *** Reading the history file *)

Lemma concat_cons x l :
  String.concat EmptyString (x :: l) = x ++ String.concat EmptyString l.
Proof. destruct l; simpl; [now rewrite app_empty_r | reflexivity]. Qed.

Lemma readlines_from_concat cur s :
  String.concat EmptyString (readlines_from cur s) = cur ++ s.
Proof.
  revert cur. induction s as [|c s IH]; intros cur; cbn [readlines_from].
  - destruct cur; simpl; [reflexivity | now rewrite app_empty_r].
  - destruct (Ascii.eqb c LF).
    + rewrite concat_cons, IH, app_assoc. reflexivity.
    + rewrite IH, app_assoc. reflexivity.
Qed.

Lemma one_line_snoc cur c :
  one_line cur -> Ascii.eqb c LF = false -> one_line (cur ++ String c EmptyString).
Proof.
  unfold one_line. intros H Hc. induction cur as [|a cur IH]; simpl in *.
  - now rewrite Hc.
  - apply andb_true_iff in H as [Ha H]. rewrite Ha. now apply IH.
Qed.

Lemma nonempty_snoc cur c : nonempty (cur ++ String c EmptyString) = true.
Proof. now destruct cur. Qed.

Lemma readlines_from_lines cur s :
  one_line cur ->
  Forall (fun line => nonempty line = true /\ one_line (chomp line))
    (readlines_from cur s).
Proof.
  revert cur. induction s as [|c s IH]; intros cur Hcur; cbn [readlines_from].
  - destruct (nonempty cur) eqn:Hne; constructor; [|constructor].
    split; [exact Hne | now rewrite chomp_one_line].
  - destruct (Ascii.eqb c LF) eqn:Hc.
    + apply Ascii.eqb_eq in Hc. subst c. constructor; [|now apply IH].
      split; [apply nonempty_snoc|].
      change (String LF EmptyString) with newline. now rewrite chomp_terminated.
    + apply IH. now apply one_line_snoc.
Qed.

Lemma slice_to_firstn {A : Type} (l : list A) (m : Z) :
  (0 <= m)%Z -> PyList.slice_to l m = firstn (Z.to_nat m) l.
Proof.
  intros H. unfold PyList.slice_to, clip.
  destruct (Z.ltb_spec m 0); [lia|].
  destruct (Z.le_ge_cases m (Z.of_nat (List.length l))).
  - now rewrite Z.min_l by lia.
  - rewrite Z.min_r by lia. rewrite Nat2Z.id.
    rewrite firstn_all. symmetry. apply firstn_all2. lia.
Qed.

(** [do_history] on a history file that exists. *)
Lemma do_history_reads k p data :
  hist_file_set k = Some p ->
  files (fs k) p = Some data ->
  let lines := PyList.slice_to (readlines data) (max_hist_cache k) in
  do_history k
  = (Ok (map (fun h => (None, None, h)) lines),
     emit (EvLogLines lines) (emit (EvLog "**HISTORY:") (set_hist_cache lines k))).
Proof.
  intros Hp Hf. unfold do_history. rewrite Hp.
  assert (Hex : path_exists (fs k) p = true) by (unfold path_exists; now rewrite Hf).
  rewrite Hex. cbn [negb]. unfold read_history. rewrite Hf. reflexivity.
Qed.

Lemma read_history_fs p k : fs (snd (read_history p k)) = fs k.
Proof. unfold read_history. now destruct (files (fs k) p). Qed.

Lemma read_history_config p k :
  let k' := snd (read_history p k) in
  execution_count k' = execution_count k
  /\ hist_file k' = hist_file k
  /\ max_hist_cache k' = max_hist_cache k.
Proof. unfold read_history. destruct (files (fs k) p); repeat split. Qed.

(** *** Files and fields over a session *)

Lemma writes_only_refl target f : writes_only target f f.
Proof. split; [reflexivity | now left]. Qed.

Lemma writes_only_trans target f1 f2 f3 :
  writes_only target f1 f2 -> writes_only target f2 f3 -> writes_only target f1 f3.
Proof.
  intros [F1 D1] [F2 D2]. split.
  - intros q Hq. rewrite (F2 q Hq). apply F1, Hq.
  - intros d. destruct (D1 d) as [E1 | (p & entries & Ht & Hd & He & Hn & Ha)].
    + destruct (D2 d) as [E2 | (p & entries & Ht & Hd & He & Hn & Ha)].
      * left. congruence.
      * right. exists p, entries. rewrite <- E1. now repeat split.
    + destruct (D2 d) as [E2 | (p' & entries' & Ht' & Hd' & He' & Hn' & Ha')].
      * right. exists p, entries. rewrite E2. now repeat split.
      * exfalso. assert (p' = p) by congruence. subst p'.
        rewrite Ha in He'. injection He' as <-.
        apply Hn'. apply in_or_app. right. now left.
Qed.

Lemma mem_true x l : mem x l = true <-> In x l.
Proof.
  unfold mem. rewrite existsb_exists. split.
  - intros (y & Hy & Heq). apply String.eqb_eq in Heq. now subst.
  - intros H. exists x. split; [exact H | apply String.eqb_refl].
Qed.

Lemma writes_only_write p data f f' :
  write_file p data f = Some f' -> writes_only (Some p) f f'.
Proof.
  intros Hw. apply write_file_Some in Hw. subst f'. split.
  - intros q Hq. simpl.
    destruct (String.eqb_spec q p) as [->|]; [congruence | reflexivity].
  - intros d. simpl. destruct (String.eqb_spec d (dirname p)) as [->|]; [|now left].
    destruct (dirs f (dirname p)) as [entries|] eqn:He; [|now left].
    destruct (mem (basename p) entries) eqn:Hm; [now left|].
    right. exists p, entries. repeat split; auto.
    intros Hin. apply mem_true in Hin. congruence.
Qed.

Lemma do_shutdown_fs restart k :
  writes_only (hist_file_set k) (fs k) (fs (snd (do_shutdown restart k))).
Proof.
  rewrite do_shutdown_unfold. cbv zeta.
  destruct (hist_file_set k) as [p|]; [|apply writes_only_refl].
  destruct (write_file _ _ _) as [f|] eqn:Hw; cbn [snd];
    [|apply writes_only_refl].
  apply (writes_only_write _ _ _ _ Hw).
Qed.

Lemma do_history_fs k :
  writes_only (hist_file_set k) (fs k) (fs (snd (do_history k))).
Proof.
  unfold do_history. destruct (hist_file_set k) as [p|];
    [|apply writes_only_refl].
  destruct (negb (path_exists (fs k) p)).
  - destruct (write_file p EmptyString (fs k)) as [f|] eqn:Hw;
      [|apply writes_only_refl].
    rewrite read_history_fs. apply (writes_only_write _ _ _ _ Hw).
  - rewrite read_history_fs. apply writes_only_refl.
Qed.

Lemma do_history_config k :
  let k' := snd (do_history k) in
  execution_count k' = execution_count k
  /\ hist_file k' = hist_file k
  /\ max_hist_cache k' = max_hist_cache k.
Proof.
  unfold do_history. destruct (hist_file_set k) as [p|]; [|repeat split].
  destruct (negb (path_exists (fs k) p)).
  - destruct (write_file p EmptyString (fs k)) as [f|]; [|repeat split].
    apply (read_history_config p (set_fs f k)).
  - apply read_history_config.
Qed.

Section WithEngine.

Variable E : engine.

(** [do_complete] leaves the kernel alone, but for the one query it may
    send. *)
Lemma do_complete_kernel code cursor_pos k :
  snd (do_complete E code cursor_pos k) = k
  \/ snd (do_complete E code cursor_pos k)
     = emit (EvEval [completion_command (completion_token code cursor_pos)]) k.
Proof.
  unfold do_complete, completion_token, completion_command. cbv zeta.
  destruct (last_char (slice_to code cursor_pos)) as [c|]; [|now left].
  destruct (Ascii.eqb c " "); [now left|].
  destruct (text_split _) as [|t0 ts]; [now left|].
  destruct (contains "/" _).
  - destruct (path_exists _ _); [|now left]. destruct (dirs _ _); now left.
  - right. destruct (eng_eval E _ _) as [v| | |]; try reflexivity.
    destruct (negb (py_truth v)); [reflexivity|]. destruct v; reflexivity.
Qed.

(** [do_complete] once the token is known. *)
Lemma do_complete_token code cursor_pos k c :
  last_char (slice_to code cursor_pos) = Some c ->
  Ascii.eqb c " "%char = false ->
  nonempty (completion_token code cursor_pos) = true ->
  let token := completion_token code cursor_pos in
  let default := {| matches := []; cursor_start := 0; cursor_end := cursor_pos |} in
  do_complete E code cursor_pos k
  = if contains "/" token then
      if path_exists (fs k) (dirname token) then
        match dirs (fs k) (dirname token) with
        | Some entries =>
            (Ok {| matches := filter (startswith (basename token)) entries;
                   cursor_start :=
                     (cursor_pos - Z.of_nat (String.length (basename token)))%Z;
                   cursor_end := cursor_pos |}, k)
        | None => (Raise OSError, k)
        end
      else (Ok default, k)
    else
      let k' := emit (EvEval [completion_command token]) k in
      match eng_eval E (trace k) [completion_command token] with
      | Returns output =>
          if negb (py_truth output) then (Ok default, k')
          else
            match output with
            | PyText text =>
                (Ok {| matches :=
                         add_attributes token (eng_dir E (trace k'))
                           (split (replace "!"%char " " text));
                       cursor_start :=
                         (cursor_pos - Z.of_nat (String.length token))%Z;
                       cursor_end := cursor_pos |}, k')
            | _ => (Raise AttributeError, k')
            end
      | o => (Raise (Raised o), k')
      end.
Proof.
  intros Hl Hc Hne. cbv zeta.
  unfold do_complete, completion_token, completion_command in *. cbv zeta.
  rewrite Hl, Hc.
  destruct (text_split (replace ";"%char " " (slice_to code cursor_pos))) as [|t0 ts];
    [discriminate Hne|].
  destruct (contains "/" _); [reflexivity|].
  destruct (eng_eval E _ _); reflexivity.
Qed.

Lemma do_execute_fs code silent store_history k :
  writes_only (hist_file_set k) (fs k)
    (fs (snd (do_execute E code silent store_history k))).
Proof.
  unfold do_execute. cbv zeta.
  set (c := text_strip code).
  set (k1 := if nonempty c && store_history then record c k else k).
  assert (Hf : fs k1 = fs k) by (unfold k1; now destruct (nonempty c && store_history)).
  assert (Hh : hist_file_set k1 = hist_file_set k)
    by (unfold k1; now destruct (nonempty c && store_history)).
  rewrite <- Hf, <- Hh.
  destruct (negb (nonempty c) || String.eqb c "keyboard" || startswith "keyboard(" c);
    [apply writes_only_refl|].
  destruct (String.eqb c "exit" || startswith "exit(" c
            || String.eqb c "quit" || startswith "quit(" c).
  { generalize (do_shutdown_fs false k1).
    destruct (do_shutdown false k1) as [[r|e] k2]; exact (fun H => H). }
  destruct (String.eqb c "restart" || startswith "restart(" c);
    [apply writes_only_refl|].
  destruct (endswith "?" c || startswith "?" c).
  { cbn [snd]. rewrite (proj1 (get_help_effect E c k1)). apply writes_only_refl. }
  set (c' := if contains "_" c then Underscore.re_sub c else c).
  destruct (eng_eval E (trace k1) [c']) as [v| |msg|]; try apply writes_only_refl.
  rewrite handle_output_trace.
  destruct (String.eqb (output_text v) interrupted_text); cbn [snd];
    destruct v, silent; apply writes_only_refl.
Qed.

Lemma serve_fs r k :
  writes_only (hist_file_set k) (fs k) (fs (serve E r k)).
Proof.
  destruct r as [code silent sh|code pos|code pos lvl| |restart]; cbn [serve].
  - apply do_execute_fs.
  - destruct (do_complete_kernel code pos k) as [-> | ->]; apply writes_only_refl.
  - apply writes_only_refl.
  - apply do_history_fs.
  - apply do_shutdown_fs.
Qed.

Lemma serve_config r k :
  execution_count (serve E r k) = execution_count k
  /\ hist_file (serve E r k) = hist_file k
  /\ max_hist_cache (serve E r k) = max_hist_cache k.
Proof.
  destruct r as [code silent sh|code pos|code pos lvl| |restart]; cbn [serve].
  - apply do_execute_config.
  - destruct (do_complete_kernel code pos k) as [-> | ->]; repeat split.
  - repeat split.
  - apply do_history_config.
  - destruct (keeps_do_shutdown restart k) as (H1 & H2 & H3 & _). now repeat split.
Qed.

Lemma serve_all_config rs k :
  execution_count (serve_all E rs k) = execution_count k
  /\ hist_file (serve_all E rs k) = hist_file k
  /\ max_hist_cache (serve_all E rs k) = max_hist_cache k.
Proof.
  unfold serve_all. revert k. induction rs as [|r rs IH]; intros k; cbn [fold_left].
  - repeat split.
  - destruct (IH (serve E r k)) as (H1 & H2 & H3).
    destruct (serve_config r k) as (G1 & G2 & G3).
    repeat split; congruence.
Qed.

Lemma hist_file_set_config k k' :
  hist_file k' = hist_file k -> hist_file_set k' = hist_file_set k.
Proof. unfold hist_file_set. now intros ->. Qed.

Lemma serve_all_fs rs k :
  writes_only (hist_file_set k) (fs k) (fs (serve_all E rs k)).
Proof.
  unfold serve_all. revert k. induction rs as [|r rs IH]; intros k; cbn [fold_left].
  - apply writes_only_refl.
  - eapply writes_only_trans; [apply serve_fs|].
    rewrite <- (hist_file_set_config k (serve E r k))
      by apply (serve_config r k).
    apply IH.
Qed.

End WithEngine.

End MoreFacts.

(** ** Further properties of the handlers *)

Module Extras.
Import PyStr PyStrFacts Kernel Scenario Session Version KernelFacts MoreFacts
  UnderscoreFacts HistoryFacts.

(** *** [do_execute] *)

(** X1: whatever the input and whatever Scilab answers, [do_execute] leaves
    [execution_count], [hist_file] and [max_hist_cache] as they were, and
    changes the history in one way only: it appends the trimmed code when
    that is non-empty and [store_history] is on. *)
Theorem do_execute_changes_history_only
  (E : engine) (code : string) (silent store_history : bool) (k : kernel) :
  let k' := snd (do_execute E code silent store_history k) in
  execution_count k' = execution_count k
  /\ hist_file k' = hist_file k
  /\ max_hist_cache k' = max_hist_cache k
  /\ hist_cache k'
     = if nonempty (text_strip code) && store_history
       then (hist_cache k ++ [text_strip code])%list else hist_cache k.
Proof.
  cbv zeta.
  destruct (do_execute_config E code silent store_history k) as (H1 & H2 & H3).
  repeat split; try assumption. apply do_execute_hist_cache.
Qed.

(** X2: an entry that [do_execute] adds to the history is never empty,
    neither starts nor ends with whitespace, and trimming it again changes
    nothing. *)
Theorem recorded_entries_are_trimmed
  (E : engine) (code : string) (silent store_history : bool) (k : kernel)
  (entry : string) :
  In entry (hist_cache (snd (do_execute E code silent store_history k))) ->
  In entry (hist_cache k)
  \/ (entry = text_strip code
      /\ text_strip entry = entry
      /\ exists c r d,
           entry = String c r /\ text_isspace c = false
           /\ last_char entry = Some d /\ text_isspace d = false).
Proof.
  rewrite do_execute_hist_cache.
  destruct (nonempty (text_strip code) && store_history) eqn:Hb; [|now left].
  intros Hin. apply in_app_or in Hin as [Hin | [<- | []]]; [now left|].
  right. apply andb_true_iff in Hb as [Hne _].
  split; [reflexivity|]. split; [apply strip_idempotent|].
  destruct (text_strip code) as [|c r] eqn:Hs; [discriminate|].
  destruct (strip_ends code c r Hs) as [Hc (d & Hd & Hsp)].
  rewrite Hs in Hd. now exists c, r, d.
Qed.

Lemma recorded_entries_are_trimmed_witness :
  In "x = 1"
     (hist_cache (snd (do_execute echo_engine "  x = 1  " false true fresh_kernel)))
  /\ (In "x = 1" (hist_cache fresh_kernel)
      \/ ("x = 1" = text_strip "  x = 1  "
          /\ text_strip "x = 1" = "x = 1"
          /\ exists c r d,
               "x = 1" = String c r /\ text_isspace c = false
               /\ last_char "x = 1" = Some d /\ text_isspace d = false)).
Proof.
  split; [left; reflexivity|].
  apply (recorded_entries_are_trimmed echo_engine "  x = 1  " false true
           fresh_kernel "x = 1").
  left; reflexivity.
Defined.

(** X3: when the trimmed input is [restart] or starts with [restart(],
    [do_execute] restarts the session once and returns the abort reply; it
    evaluates nothing, writes nothing, and keeps the history, to which the
    input itself is added as usual. *)
Theorem do_execute_restart
  (E : engine) (code : string) (silent store_history : bool) (k : kernel) :
  restart_form (text_strip code) ->
  do_execute E code silent store_history k
  = (Ok (ReplyAbort (execution_count k)),
     emit EvRestart (if store_history then record (text_strip code) k else k)).
Proof.
  intros H. destruct (restart_form_test _ H) as (Hne & H1 & H2 & H3).
  unfold do_execute. cbv zeta. rewrite H1, H2, H3, Hne. reflexivity.
Qed.

Lemma do_execute_restart_witness :
  restart_form (text_strip " restart() ")
  /\ do_execute echo_engine " restart() " false false fresh_kernel
     = (Ok (ReplyAbort 0), emit EvRestart fresh_kernel).
Proof.
  split; [right; reflexivity|].
  apply (do_execute_restart echo_engine " restart() " false false fresh_kernel).
  right; reflexivity.
Defined.

(** X4: a help query (a leading or trailing [?]) is never evaluated and is
    answered with the abort reply.  The name it asks about is the last
    token of the query once its question marks are taken out; without one
    nothing happens.  Else [do_execute] asks Scilab whether that name
    exists and, when it does, opens the help browser for it and sends the
    notice naming it on stdout; that notice is sent in silent mode too.  No
    file is touched. *)
Theorem do_execute_help_query
  (E : engine) (code : string) (silent store_history : bool) (k : kernel) :
  help_query (text_strip code) = true ->
  let reply := fst (do_execute E code silent store_history k) in
  let k' := snd (do_execute E code silent store_history k) in
  let t := help_token (text_strip code) in
  reply = Ok (ReplyAbort (execution_count k))
  /\ fs k' = fs k
  /\ trace k'
     = (trace k
        ++ if nonempty t then
             EvExists t
             :: (if (eng_exists E (trace k) t =? 0)%Z then []
                 else [EvHelp t;
                       EvStream "stdout" ("Calling Help Browser for `" ++ t ++ "`")])
           else [])%list.
Proof.
  intros H. cbv zeta. rewrite (do_execute_help E code silent store_history k H).
  cbn [fst snd]. split; [reflexivity|].
  set (k1 := if store_history then record (text_strip code) k else k).
  assert (Ht : trace k1 = trace k) by (unfold k1; now destruct store_history).
  assert (Hf : fs k1 = fs k) by (unfold k1; now destruct store_history).
  destruct (get_help_effect E (text_strip code) k1) as [Hfs Hadd].
  rewrite Hfs, Hf, Hadd, Ht. split; reflexivity.
Qed.

Lemma do_execute_help_query_witness :
  help_query (text_strip "clf; plot2d ?") = true
  /\ help_token (text_strip "clf; plot2d ?") = "plot2d"
  /\ fst (do_execute echo_engine "clf; plot2d ?" true false fresh_kernel)
     = Ok (ReplyAbort 0)
  /\ trace (snd (do_execute echo_engine "clf; plot2d ?" true false fresh_kernel))
     = (trace fresh_kernel
        ++ [EvExists "plot2d"; EvHelp "plot2d";
            EvStream "stdout" "Calling Help Browser for `plot2d`"])%list.
Proof.
  split; [reflexivity|]. split; [reflexivity|].
  pose proof (do_execute_help_query echo_engine "clf; plot2d ?" true false
                fresh_kernel eq_refl) as H.
  split; [exact (proj1 H) | exact (proj2 (proj2 H))].
Defined.

(** X5: when [_eval] is interrupted from the keyboard, [do_execute] forwards
    one SIGINT to the Scilab process and returns the abort reply; nothing is
    sent to stdout and [last_kernel_value] is not set. *)
Theorem do_execute_interrupted
  (E : engine) (code : string) (silent store_history : bool) (k : kernel) :
  evaluated (text_strip code) = true ->
  eng_eval E (trace k) [submitted (text_strip code)] = KeyboardInterrupt ->
  fst (do_execute E code silent store_history k)
  = Ok (ReplyAbort (execution_count k))
  /\ trace (snd (do_execute E code silent store_history k))
     = (trace k ++ [EvEval [submitted (text_strip code)]; EvSendSigint])%list.
Proof.
  intros Hev Hout.
  rewrite (do_execute_evaluated E code silent store_history k Hev).
  cbv zeta. rewrite record_trace, Hout. cbn [fst snd]. split; [reflexivity|].
  simpl. now rewrite record_trace, <- List.app_assoc.
Qed.

Lemma do_execute_interrupted_witness :
  evaluated (text_strip "while %t, end") = true
  /\ fst (do_execute interrupting_engine "while %t, end" false true fresh_kernel)
     = Ok (ReplyAbort 0)
  /\ trace (snd (do_execute interrupting_engine "while %t, end" false true fresh_kernel))
     = (trace fresh_kernel ++ [EvEval ["while %t, end"]; EvSendSigint])%list.
Proof.
  split; [reflexivity|].
  apply (do_execute_interrupted interrupting_engine "while %t, end" false true
           fresh_kernel); reflexivity.
Defined.

(** X6: when [_eval] fails with an exception that is neither an interrupt
    nor a Scilab2PyError, [do_execute] restarts the session and still
    returns the ok reply; the text "Uncaught Exception, Restarting Scilab"
    is assigned but never sent, so nothing reaches stdout. *)
Theorem do_execute_uncaught_exception
  (E : engine) (code : string) (silent store_history : bool) (k : kernel) :
  evaluated (text_strip code) = true ->
  eng_eval E (trace k) [submitted (text_strip code)] = OtherException ->
  fst (do_execute E code silent store_history k)
  = Ok (ReplyOk (execution_count k))
  /\ trace (snd (do_execute E code silent store_history k))
     = (trace k ++ [EvEval [submitted (text_strip code)]; EvRestart])%list.
Proof.
  intros Hev Hout.
  rewrite (do_execute_evaluated E code silent store_history k Hev).
  cbv zeta. rewrite record_trace, Hout. cbn [fst snd]. split; [reflexivity|].
  simpl. now rewrite record_trace, <- List.app_assoc.
Qed.

Lemma do_execute_uncaught_exception_witness :
  evaluated (text_strip "x = 1") = true
  /\ fst (do_execute crashing_engine "x = 1" false true fresh_kernel)
     = Ok (ReplyOk 0)
  /\ trace (snd (do_execute crashing_engine "x = 1" false true fresh_kernel))
     = (trace fresh_kernel ++ [EvEval ["x = 1"]; EvRestart])%list.
Proof.
  split; [reflexivity|].
  apply (do_execute_uncaught_exception crashing_engine "x = 1" false true
           fresh_kernel); reflexivity.
Defined.

(** X7: when [_eval] returns a value, [do_execute] stores it in
    [last_kernel_value] unless it is [None], then sends its text to stdout
    unless the call is silent (for [None] the empty text is sent).  The
    reply is ok, except that a value whose text is "Scilab Session
    Interrupted" gives the abort reply. *)
Theorem do_execute_result
  (E : engine) (code : string) (silent store_history : bool) (k : kernel)
  (v : pyval) :
  evaluated (text_strip code) = true ->
  eng_eval E (trace k) [submitted (text_strip code)] = Returns v ->
  fst (do_execute E code silent store_history k)
  = Ok (if String.eqb (output_text v) interrupted_text
        then ReplyAbort (execution_count k) else ReplyOk (execution_count k))
  /\ trace (snd (do_execute E code silent store_history k))
     = (trace k ++ EvEval [submitted (text_strip code)] :: output_puts v
          ++ if silent then [] else [EvStream "stdout" (output_text v)])%list.
Proof.
  intros Hev Hout.
  rewrite (do_execute_evaluated E code silent store_history k Hev).
  cbv zeta. rewrite record_trace, Hout. cbn [fst snd]. split; [reflexivity|].
  rewrite handle_output_trace. cbn [snd].
  destruct silent; [|unfold send_stdout; simpl trace];
    rewrite trace_emit_all; simpl trace;
    rewrite record_trace, <- ?List.app_assoc; simpl;
    now rewrite ?List.app_nil_r.
Qed.

Lemma do_execute_result_witness :
  evaluated (text_strip "Scilab Session Interrupted") = true
  /\ fst (do_execute echo_engine "Scilab Session Interrupted" false false fresh_kernel)
     = Ok (ReplyAbort 0)
  /\ trace (snd (do_execute echo_engine "Scilab Session Interrupted" false false
                   fresh_kernel))
     = (trace fresh_kernel
        ++ [EvEval ["Scilab Session Interrupted"];
            EvPut "last_kernel_value" (PyText "Scilab Session Interrupted");
            EvStream "stdout" "Scilab Session Interrupted"])%list.
Proof.
  split; [reflexivity|].
  apply (do_execute_result echo_engine "Scilab Session Interrupted" false false
           fresh_kernel (PyText "Scilab Session Interrupted")); reflexivity.
Defined.

(** X8: an input that is not one of the keyword or help forms is evaluated
    exactly once, and unless some [_] in it stands two bytes after another
    [_] with a non-word byte between them, the command evaluated is the
    trimmed input with every [_] that has no word byte next to it replaced
    by [last_kernel_value] and nothing else changed. *)
Theorem do_execute_submits_word_boundary_substitution
  (E : engine) (code : string) (silent store_history : bool) (k : kernel) :
  evaluated (text_strip code) = true ->
  Underscore.crowded (text_strip code) = false ->
  exists rest,
    trace (snd (do_execute E code silent store_history k))
    = (trace k ++ EvEval [Underscore.word_boundary_sub (text_strip code)] :: rest)%list
    /\ existsb is_eval rest = false.
Proof.
  intros Hev Hcr.
  rewrite <- (submitted_word_boundary _ Hcr).
  apply do_execute_evaluates_once, Hev.
Qed.

Lemma do_execute_submits_word_boundary_substitution_witness :
  evaluated (text_strip "x_y = _ * f(_)") = true
  /\ Underscore.crowded (text_strip "x_y = _ * f(_)") = false
  /\ exists rest,
       trace (snd (do_execute echo_engine "x_y = _ * f(_)" true false fresh_kernel))
       = (trace fresh_kernel
          ++ EvEval ["x_y = last_kernel_value * f(last_kernel_value)"] :: rest)%list
       /\ existsb is_eval rest = false.
Proof.
  split; [reflexivity|]. split; [reflexivity|].
  apply (do_execute_submits_word_boundary_substitution echo_engine
           "x_y = _ * f(_)" true false fresh_kernel); reflexivity.
Defined.


(** *** Sessions *)

(** X9: over any sequence of requests to the five handlers, the kernel
    writes no file but its history file, and changes no directory listing,
    except that the directory of the history file gains the name of that
    file when the file is created.  Without a history file nothing
    changes. *)
Theorem handlers_write_history_file_only
  (E : engine) (rs : list request) (k : kernel) :
  let k' := serve_all E rs k in
  (forall q, hist_file_set k <> Some q -> files (fs k') q = files (fs k) q)
  /\ forall d,
       dirs (fs k') d = dirs (fs k) d
       \/ exists p entries,
            hist_file_set k = Some p /\ d = dirname p
            /\ dirs (fs k) d = Some entries
            /\ ~ In (basename p) entries
            /\ dirs (fs k') d = Some (entries ++ [basename p])%list.
Proof. exact (serve_all_fs E rs k). Qed.

(** X10: no handler changes [execution_count], [hist_file] or
    [max_hist_cache]: after any sequence of requests a kernel made by
    [__init__] still has its history file path and the cap of 1000. *)
Theorem handlers_keep_configuration
  (E : engine) (rs : list request) (profile : option string) (f : filesystem) :
  let k' := serve_all E rs (__init__ profile f) in
  execution_count k' = 0%Z
  /\ max_hist_cache k' = 1000%Z
  /\ hist_file k'
     = option_map (fun dir => path_join dir "scilab_kernel.hist") profile.
Proof.
  cbv zeta.
  destruct (serve_all_config E rs (__init__ profile f)) as (H1 & H2 & H3).
  rewrite H1, H2, H3. repeat split.
Qed.


(** *** [do_shutdown] and [do_history] *)

(** X11: whenever [do_shutdown] returns, that is, whenever there is no
    history file or it could be opened, the reply echoes the [restart] flag,
    the session was restarted when the flag is set and closed otherwise,
    and the history file holds the last [max_hist_cache] entries joined by
    newlines.  The history in memory is kept as it is. *)
Theorem do_shutdown_saves_history
  (restart : bool) (k : kernel) (p : string) (reply : shutdown_reply) :
  hist_file_set k = Some p ->
  (0 < max_hist_cache k)%Z ->
  fst (do_shutdown restart k) = Ok reply ->
  let k' := snd (do_shutdown restart k) in
  reply = {| restart_flag := restart |}
  /\ trace k'
     = (trace k ++ [EvLog "**Shutting down";
                    if restart then EvRestart else EvClose])%list
  /\ files (fs k') p
     = Some (join newline
               (last_entries (Z.to_nat (max_hist_cache k)) (hist_cache k)))
  /\ hist_cache k' = hist_cache k.
Proof.
  intros Hp Hm Hok. cbv zeta. split.
  - rewrite do_shutdown_unfold in Hok. cbv zeta in Hok. rewrite Hp in Hok.
    destruct (write_file _ _ _); [|discriminate]. now injection Hok as <-.
  - split; [apply do_shutdown_trace|]. split.
    + rewrite (do_shutdown_file restart k p reply Hp Hok).
      now rewrite slice_from_last.
    + apply (keeps_do_shutdown restart k).
Qed.

Lemma do_shutdown_saves_history_witness :
  let k := record "y = 2" (record "x = 1" fresh_kernel) in
  let k' := snd (do_shutdown true k) in
  fst (do_shutdown true k) = Ok {| restart_flag := true |}
  /\ trace k' = (trace k ++ [EvLog "**Shutting down"; EvRestart])%list
  /\ files (fs k') (path_join profile_dir "scilab_kernel.hist")
     = Some (join newline ["x = 1"; "y = 2"])
  /\ hist_cache k' = ["x = 1"; "y = 2"].
Proof.
  split; [reflexivity|].
  apply (do_shutdown_saves_history true
           (record "y = 2" (record "x = 1" fresh_kernel))
           (path_join profile_dir "scilab_kernel.hist")
           {| restart_flag := true |}).
  - reflexivity.
  - reflexivity.
  - reflexivity.
Defined.

(** X12: a kernel without a history file answers every history request with
    the empty list, whatever was executed before, and the request changes
    nothing: the history in memory stays. *)
Theorem do_history_without_file
  (E : engine) (rs : list request) (k : kernel) :
  hist_file k = None ->
  do_history (serve_all E rs k) = (Ok [], serve_all E rs k).
Proof.
  intros H. destruct (serve_all_config E rs k) as (_ & Hf & _).
  unfold do_history, hist_file_set. now rewrite Hf, H.
Qed.

Lemma do_history_without_file_witness :
  let k := serve_all echo_engine [Execute "x = 1" false true; Shutdown true]
             fresh_kernel_no_profile in
  hist_file fresh_kernel_no_profile = None
  /\ hist_cache k = ["x = 1"]
  /\ do_history k = (Ok [], k).
Proof.
  split; [reflexivity|]. split; [reflexivity|].
  apply (do_history_without_file echo_engine
           [Execute "x = 1" false true; Shutdown true] fresh_kernel_no_profile).
  reflexivity.
Defined.

(** X13: when the history file does not exist yet, [do_history] tries to
    create it.  Where the directory of the file exists, the file is created
    empty and shows in the listing of that directory, the reply is the
    empty list, and the history in memory is replaced by the empty list as
    well: what was recorded so far is dropped.  Where that directory is
    missing, [open] fails, the IOError leaves the handler, and the kernel,
    its history included, is as before. *)
Theorem do_history_creates_missing_file (k : kernel) (p : string) :
  hist_file_set k = Some p ->
  path_exists (fs k) p = false ->
  let k' := snd (do_history k) in
  match dirs (fs k) (dirname p) with
  | Some entries =>
      fst (do_history k) = Ok []
      /\ files (fs k') p = Some EmptyString
      /\ (exists entries', dirs (fs k') (dirname p) = Some entries'
                           /\ In (basename p) entries')
      /\ hist_cache k' = []
      /\ trace k' = (trace k ++ [EvLog "**HISTORY:"; EvLogLines []])%list
  | None => do_history k = (Raise IOError, k)
  end.
Proof.
  intros Hp Hex. cbv zeta.
  assert (Hd : dirs (fs k) p = None).
  { unfold path_exists in Hex. destruct (files (fs k) p); [discriminate|].
    destruct (dirs (fs k) p); [discriminate | reflexivity]. }
  unfold do_history. rewrite Hp, Hex. cbn [negb].
  unfold write_file. rewrite Hd.
  destruct (dirs (fs k) (dirname p)) as [entries|] eqn:He; [|reflexivity].
  set (f := put_file p EmptyString (fs k)).
  assert (Hf : files f p = Some EmptyString) by apply put_file_files.
  unfold read_history. cbv zeta. cbn [fs set_fs]. rewrite Hf.
  assert (Hl : PyList.slice_to (readlines EmptyString)
                 (max_hist_cache (set_fs f k)) = [])
    by (unfold PyList.slice_to; simpl; now rewrite firstn_nil).
  rewrite Hl. cbn [fst snd]. split; [reflexivity|]. split; [exact Hf|].
  split; [|split; [reflexivity | simpl; now rewrite <- List.app_assoc]].
  unfold f. simpl. rewrite String.eqb_refl, He.
  destruct (mem (basename p) entries) eqn:Hm.
  - exists entries. split; [reflexivity | now apply mem_true].
  - eexists. split; [reflexivity|]. apply in_or_app. right. now left.
Qed.

Lemma do_history_creates_missing_file_witness :
  let p := path_join profile_dir "scilab_kernel.hist" in
  let k := record "x = 1" fresh_kernel in
  let k' := snd (do_history k) in
  path_exists (fs k) p = false
  /\ fst (do_history k) = Ok []
  /\ files (fs k') p = Some EmptyString
  /\ dirs (fs k') profile_dir = Some ["scilab_kernel.hist"]
  /\ hist_cache k' = [].
Proof.
  pose proof (do_history_creates_missing_file (record "x = 1" fresh_kernel)
                (path_join profile_dir "scilab_kernel.hist") eq_refl eq_refl)
    as (H1 & H2 & _ & H4 & _).
  split; [reflexivity|]. split; [exact H1|]. split; [exact H2|].
  split; [reflexivity | exact H4].
Defined.

(** X14: when the history file exists, [do_history] returns its first
    [max_hist_cache] lines, in order, each as [(None, None, line)], and
    makes exactly these lines the history in memory, which therefore has at
    most [max_hist_cache] entries afterwards; the file is not changed. *)
Theorem do_history_loads_capped (k : kernel) (p data : string) :
  hist_file_set k = Some p ->
  files (fs k) p = Some data ->
  (0 <= max_hist_cache k)%Z ->
  let lines := firstn (Z.to_nat (max_hist_cache k)) (readlines data) in
  let k' := snd (do_history k) in
  fst (do_history k) = Ok (map (fun h => (None, None, h)) lines)
  /\ hist_cache k' = lines
  /\ (Z.of_nat (List.length (hist_cache k')) <= max_hist_cache k')%Z
  /\ fs k' = fs k.
Proof.
  intros Hp Hf Hm. cbv zeta.
  rewrite (do_history_reads k p data Hp Hf). cbv zeta. cbn [fst snd].
  rewrite (slice_to_firstn _ _ Hm). repeat split.
  simpl. rewrite List.length_firstn. lia.
Qed.

Lemma do_history_loads_capped_witness :
  let p := path_join profile_dir "scilab_kernel.hist" in
  let data := "x = 1" ++ newline ++ "y = 2" ++ newline in
  let k := set_fs (put_file p data profile_fs) fresh_kernel in
  fst (do_history k)
  = Ok [(None, None, "x = 1" ++ newline); (None, None, "y = 2" ++ newline)]
  /\ hist_cache (snd (do_history k)) = ["x = 1" ++ newline; "y = 2" ++ newline].
Proof.
  pose proof (do_history_loads_capped
                (set_fs (put_file (path_join profile_dir "scilab_kernel.hist")
                           ("x = 1" ++ newline ++ "y = 2" ++ newline) profile_fs)
                   fresh_kernel)
                (path_join profile_dir "scilab_kernel.hist")
                ("x = 1" ++ newline ++ "y = 2" ++ newline)
                eq_refl eq_refl ltac:(simpl; lia)) as H.
  split; [exact (proj1 H) | exact (proj1 (proj2 H))].
Defined.

(** X15: what [do_history] returns is the file cut into lines and nothing
    else: when the file has at most [max_hist_cache] lines, the returned
    texts put end to end are the contents of the file, none of them is
    empty, and a newline occurs in a text only as its last byte. *)
Theorem do_history_is_the_file (k : kernel) (p data : string) :
  hist_file_set k = Some p ->
  files (fs k) p = Some data ->
  (Z.of_nat (List.length (readlines data)) <= max_hist_cache k)%Z ->
  exists items,
    fst (do_history k) = Ok items
    /\ String.concat EmptyString (map snd items) = data
    /\ Forall (fun item => nonempty (snd item) = true
                           /\ one_line (chomp (snd item))) items.
Proof.
  intros Hp Hf Hm.
  rewrite (do_history_reads k p data Hp Hf). cbv zeta. cbn [fst].
  rewrite (slice_to_all _ _ Hm).
  eexists. split; [reflexivity|]. split.
  - rewrite List.map_map. cbn [snd]. rewrite List.map_id.
    unfold readlines. now rewrite readlines_from_concat.
  - apply Forall_map. cbn [snd]. apply readlines_from_lines. reflexivity.
Qed.

Lemma do_history_is_the_file_witness :
  let p := path_join profile_dir "scilab_kernel.hist" in
  let data := "x = 1" ++ newline ++ newline ++ "y = 2" in
  let k := set_fs (put_file p data profile_fs) fresh_kernel in
  exists items,
    fst (do_history k) = Ok items
    /\ String.concat EmptyString (map snd items) = data
    /\ Forall (fun item => nonempty (snd item) = true
                           /\ one_line (chomp (snd item))) items.
Proof.
  apply (do_history_is_the_file
           (set_fs (put_file (path_join profile_dir "scilab_kernel.hist")
                      ("x = 1" ++ newline ++ newline ++ "y = 2") profile_fs)
              fresh_kernel)
           (path_join profile_dir "scilab_kernel.hist")
           ("x = 1" ++ newline ++ newline ++ "y = 2")).
  - reflexivity.
  - reflexivity.
  - vm_compute. discriminate.
Defined.

(** X16: when the path of the history file is a directory, [do_history]
    fails with IOError at [open] and leaves the kernel, its history
    included, as it was. *)
Theorem do_history_on_directory (k : kernel) (p : string) (entries : list string) :
  hist_file_set k = Some p ->
  files (fs k) p = None ->
  dirs (fs k) p = Some entries ->
  do_history k = (Raise IOError, k).
Proof.
  intros Hp Hf Hd. unfold do_history. rewrite Hp. cbv zeta.
  assert (Hex : path_exists (fs k) p = true)
    by (unfold path_exists; now rewrite Hf, Hd).
  rewrite Hex. cbn [negb]. unfold read_history. now rewrite Hf.
Qed.

Lemma do_history_on_directory_witness :
  let p := path_join profile_dir "scilab_kernel.hist" in
  let f := {| files := fun _ => None;
              dirs := fun q => if String.eqb q p then Some [] else None |} in
  let k := set_fs f (record "x = 1" fresh_kernel) in
  do_history k = (Raise IOError, k).
Proof.
  apply (do_history_on_directory
           (set_fs {| files := fun _ => None;
                      dirs := fun q =>
                        if String.eqb q (path_join profile_dir "scilab_kernel.hist")
                        then Some [] else None |}
              (record "x = 1" fresh_kernel))
           (path_join profile_dir "scilab_kernel.hist") []); reflexivity.
Defined.

(** X17: a history of single-line entries that [do_shutdown] saved (it
    returned, so the file could be opened) and that [do_history] loads in a
    kernel on the same file comes back entry for entry, last
    [max_hist_cache = 1000] entries only, each text equal to the saved
    entry once its line terminator is removed. *)
Theorem history_roundtrip_modulo_terminators
  (k next : kernel) (p : string) (restart : bool) (reply : shutdown_reply) :
  hist_file_set k = Some p ->
  max_hist_cache k = 1000%Z ->
  fst (do_shutdown restart k) = Ok reply ->
  hist_file_set next = Some p ->
  max_hist_cache next = 1000%Z ->
  fs next = fs (snd (do_shutdown restart k)) ->
  Forall (fun x => one_line x /\ nonempty x = true) (hist_cache k) ->
  exists items,
    fst (do_history next) = Ok items
    /\ map (fun item => chomp (snd item)) items = last_entries 1000 (hist_cache k)
    /\ hist_cache (snd (do_history next)) = map snd items.
Proof. apply history_roundtrip_up_to_terminators. Qed.

Lemma history_roundtrip_modulo_terminators_witness :
  let k := record "y = 2" (record "x = 1" fresh_kernel) in
  let next := __init__ (Some profile_dir) (fs (snd (do_shutdown false k))) in
  fst (do_shutdown false k) = Ok {| restart_flag := false |}
  /\ exists items,
       fst (do_history next) = Ok items
       /\ map (fun item => chomp (snd item)) items = ["x = 1"; "y = 2"]
       /\ hist_cache (snd (do_history next)) = map snd items.
Proof.
  split; [reflexivity|].
  apply (history_roundtrip_modulo_terminators
           (record "y = 2" (record "x = 1" fresh_kernel))
           (__init__ (Some profile_dir)
              (fs (snd (do_shutdown false
                          (record "y = 2" (record "x = 1" fresh_kernel))))))
           (path_join profile_dir "scilab_kernel.hist") false
           {| restart_flag := false |});
    try reflexivity.
  repeat constructor.
Defined.

(** *** [do_complete] *)

(** X18: for a cursor position that is not negative, every reply of
    [do_complete] has [cursor_end] at the cursor and [cursor_start] between
    0 and the cursor. *)
Theorem do_complete_cursor_range
  (E : engine) (code : string) (cursor_pos : Z) (k : kernel) (r : complete_reply) :
  (0 <= cursor_pos)%Z ->
  fst (do_complete E code cursor_pos k) = Ok r ->
  cursor_end r = cursor_pos /\ (0 <= cursor_start r <= cursor_pos)%Z.
Proof.
  intros Hpos.
  pose proof (completion_token_length code cursor_pos Hpos) as Htok.
  unfold completion_token in Htok. unfold do_complete. cbv zeta.
  destruct (last_char _) as [c|]; [|discriminate].
  destruct (Ascii.eqb c " ");
    [intros [= <-]; cbn [cursor_end cursor_start]; lia|].
  destruct (text_split _) as [|t0 ts] eqn:Hs;
    [intros [= <-]; cbn [cursor_end cursor_start]; lia|].
  set (token := PyList.last_item (t0 :: ts) EmptyString) in *.
  destruct (contains "/" token).
  - destruct (path_exists _ _);
      [|intros [= <-]; cbn [cursor_end cursor_start]; lia].
    destruct (dirs _ _); [|discriminate].
    intros [= <-]. cbn [cursor_end cursor_start].
    pose proof (basename_length token). lia.
  - destruct (eng_eval E _ _) as [v| | |]; try discriminate.
    destruct (negb (py_truth v));
      [intros [= <-]; cbn [cursor_end cursor_start]; lia|].
    destruct v; try discriminate.
    intros [= <-]. cbn [cursor_end cursor_start]. lia.
Qed.

Lemma do_complete_cursor_range_witness :
  let r := {| matches := ["plot"; "plot2d"; "plot3d"; "plotter"];
              cursor_start := 4; cursor_end := 6 |} in
  fst (do_complete completing_engine "a = pl" 6 fresh_kernel) = Ok r
  /\ cursor_end r = 6%Z /\ (0 <= cursor_start r <= 6)%Z.
Proof.
  split; [reflexivity|].
  apply (do_complete_cursor_range completing_engine "a = pl" 6 fresh_kernel
           {| matches := ["plot"; "plot2d"; "plot3d"; "plotter"];
              cursor_start := 4; cursor_end := 6 |}).
  - lia.
  - reflexivity.
Defined.

(** X19: when the cursor is inside the buffer and the byte before it is
    neither whitespace nor a semicolon, the token [do_complete] completes is
    the longest run of such bytes that ends at the cursor, and
    [cursor_pos - len(token)] is where it starts in the buffer; a token
    without a slash is sent to Scilab as [completion("token")]. *)
Theorem completion_token_ends_at_cursor
  (E : engine) (code : string) (cursor_pos : Z) (k : kernel) (c : ascii) :
  (0 <= cursor_pos <= Z.of_nat (String.length code))%Z ->
  char_before_cursor code cursor_pos = Some c ->
  is_separator c = false ->
  let token := completion_token code cursor_pos in
  (exists pre post,
     code = pre ++ token ++ post
     /\ Z.of_nat (String.length pre)
        = (cursor_pos - Z.of_nat (String.length token))%Z
     /\ nonempty token = true
     /\ separator_free token
     /\ (pre = EmptyString
         \/ exists d, last_char pre = Some d /\ is_separator d = true))
  /\ (contains "/" token = false ->
      snd (do_complete E code cursor_pos k)
      = emit (EvEval [completion_command token]) k).
Proof.
  intros Hpos Hc Hsep. cbv zeta. unfold char_before_cursor in Hc.
  assert (Hslice : slice_to code cursor_pos = take (Z.to_nat cursor_pos) code).
  { unfold slice_to, clip. destruct (Z.ltb_spec cursor_pos 0); [lia|].
    now rewrite Z.min_l by lia. }
  destruct (last_token_suffix (slice_to code cursor_pos) EmptyString c
              eq_refl Hc Hsep) as (pre & t & Heq & Ht & Hne & Hfree & Hpre).
  simpl in Heq.
  assert (Htok : completion_token code cursor_pos = t) by exact Ht.
  rewrite Htok. split.
  - exists pre, (drop (Z.to_nat cursor_pos) code).
    split; [|split; [|now repeat split]].
    + rewrite <- app_assoc, <- Heq, Hslice. symmetry. apply take_drop.
    + assert (Hlen : String.length (slice_to code cursor_pos) = Z.to_nat cursor_pos).
      { rewrite Hslice. apply length_take. lia. }
      rewrite Heq, length_app in Hlen. lia.
  - intros Hslash.
    assert (Hsp : Ascii.eqb c " " = false).
    { destruct (Ascii.eqb_spec c " ") as [->|]; [discriminate Hsep | reflexivity]. }
    assert (Hne' : nonempty (completion_token code cursor_pos) = true)
      by now rewrite Htok.
    rewrite (do_complete_token E code cursor_pos k c Hc Hsp Hne').
    cbv zeta. rewrite Htok, Hslash.
    destruct (eng_eval E _ _) as [v| | |]; try reflexivity.
    destruct (negb (py_truth v)); [reflexivity|]. destruct v; reflexivity.
Qed.

Lemma completion_token_ends_at_cursor_witness :
  completion_token "x = 1; pl(2)" 9 = "pl"
  /\ (exists pre post,
        "x = 1; pl(2)" = pre ++ "pl" ++ post
        /\ Z.of_nat (String.length pre) = (9 - 2)%Z
        /\ nonempty "pl" = true
        /\ separator_free "pl"
        /\ (pre = EmptyString
            \/ exists d, last_char pre = Some d /\ is_separator d = true))
  /\ (contains "/" "pl" = false ->
      snd (do_complete echo_engine "x = 1; pl(2)" 9 fresh_kernel)
      = emit (EvEval [completion_command "pl"]) fresh_kernel).
Proof.
  split; [reflexivity|].
  apply (completion_token_ends_at_cursor echo_engine "x = 1; pl(2)" 9
           fresh_kernel "l"%char).
  - simpl. lia.
  - reflexivity.
  - reflexivity.
Defined.

(** X20: when Scilab answers a completion query with a non-empty string,
    the matches are its candidates (the answer split at [!] and whitespace),
    in order, followed by the attributes of the wrapper that start with the
    token and are not among the candidates, each once; [cursor_start] is
    the cursor less the length of the token. *)
Theorem do_complete_matches
  (E : engine) (code : string) (cursor_pos : Z) (k : kernel) (c : ascii)
  (text : string) :
  let token := completion_token code cursor_pos in
  let k' := emit (EvEval [completion_command token]) k in
  let candidates := split (replace "!"%char " " text) in
  char_before_cursor code cursor_pos = Some c ->
  Ascii.eqb c " "%char = false ->
  nonempty token = true ->
  contains "/" token = false ->
  eng_eval E (trace k) [completion_command token] = Returns (PyText text) ->
  nonempty text = true ->
  exists extra,
    do_complete E code cursor_pos k
    = (Ok {| matches := (candidates ++ extra)%list;
             cursor_start := (cursor_pos - Z.of_nat (String.length token))%Z;
             cursor_end := cursor_pos |}, k')
    /\ NoDup extra
    /\ forall x, In x extra
                 <-> In x (eng_dir E (trace k'))
                     /\ startswith token x = true
                     /\ ~ In x candidates.
Proof.
  cbv zeta. intros Hc Hsp Hne Hslash Hout Htext.
  rewrite (do_complete_token E code cursor_pos k c Hc Hsp Hne).
  cbv zeta. rewrite Hslash, Hout. cbn [py_truth]. rewrite Htext. cbn [negb].
  destruct (add_attributes_spec (completion_token code cursor_pos)
              (eng_dir E (trace (emit (EvEval [completion_command
                                                 (completion_token code cursor_pos)]) k)))
              (split (replace "!"%char " " text)))
    as (extra & Heq & Hnd & Hin).
  exists extra. rewrite Heq. split; [reflexivity|]. split; [exact Hnd | exact Hin].
Qed.

Lemma do_complete_matches_witness :
  exists extra,
    do_complete completing_engine "a = pl" 6 fresh_kernel
    = (Ok {| matches := (["plot"; "plot2d"; "plot3d"] ++ extra)%list;
             cursor_start := 4; cursor_end := 6 |},
       emit (EvEval [completion_command "pl"]) fresh_kernel)
    /\ NoDup extra
    /\ forall x, In x extra
                 <-> In x ["plot"; "plot3d"; "plotter"; "put"]
                     /\ startswith "pl" x = true
                     /\ ~ In x ["plot"; "plot2d"; "plot3d"].
Proof.
  apply (do_complete_matches completing_engine "a = pl" 6 fresh_kernel "l"%char
           "!plot !plot2d !plot3d !"); reflexivity.
Defined.

(** X21: [do_complete] catches nothing: when the completion query is
    interrupted or fails in Scilab, the exception leaves the handler, after
    the one query was sent. *)
Theorem do_complete_propagates_failures
  (E : engine) (code : string) (cursor_pos : Z) (k : kernel) (c : ascii)
  (o : eval_outcome) :
  let token := completion_token code cursor_pos in
  char_before_cursor code cursor_pos = Some c ->
  Ascii.eqb c " "%char = false ->
  nonempty token = true ->
  contains "/" token = false ->
  eng_eval E (trace k) [completion_command token] = o ->
  (forall v, o <> Returns v) ->
  do_complete E code cursor_pos k
  = (Raise (Raised o), emit (EvEval [completion_command token]) k).
Proof.
  cbv zeta. intros Hc Hsp Hne Hslash Hout Hfail.
  rewrite (do_complete_token E code cursor_pos k c Hc Hsp Hne).
  cbv zeta. rewrite Hslash, Hout.
  destruct o as [v| | |]; try reflexivity. now destruct (Hfail v).
Qed.

Lemma do_complete_propagates_failures_witness :
  do_complete (rejecting_engine "Scilab is busy") "pl" 2 fresh_kernel
  = (Raise (Raised (Scilab2PyError "Scilab is busy")),
     emit (EvEval [completion_command "pl"]) fresh_kernel).
Proof.
  apply (do_complete_propagates_failures (rejecting_engine "Scilab is busy")
           "pl" 2 fresh_kernel "l"%char (Scilab2PyError "Scilab is busy"));
    try reflexivity.
  intros v; discriminate.
Defined.

(** X22: when Scilab answers a completion query with [None] or the empty
    string, [do_complete] returns its default reply, with no matches and
    [cursor_start] 0; the attributes of the wrapper are not looked at, even
    if some start with the token. *)
Theorem do_complete_empty_answer
  (E : engine) (code : string) (cursor_pos : Z) (k : kernel) (c : ascii)
  (v : pyval) :
  let token := completion_token code cursor_pos in
  char_before_cursor code cursor_pos = Some c ->
  Ascii.eqb c " "%char = false ->
  nonempty token = true ->
  contains "/" token = false ->
  eng_eval E (trace k) [completion_command token] = Returns v ->
  v = PyNone \/ v = PyText EmptyString ->
  do_complete E code cursor_pos k
  = (Ok {| matches := []; cursor_start := 0; cursor_end := cursor_pos |},
     emit (EvEval [completion_command token]) k).
Proof.
  cbv zeta. intros Hc Hsp Hne Hslash Hout Hv.
  rewrite (do_complete_token E code cursor_pos k c Hc Hsp Hne).
  cbv zeta. rewrite Hslash, Hout. now destruct Hv as [-> | ->].
Qed.

Lemma do_complete_empty_answer_witness :
  let E := {| eng_eval := fun _ _ => Returns (PyText EmptyString);
              eng_exists := fun _ _ => 0%Z;
              eng_dir := fun _ => ["put"; "pull"] |} in
  do_complete E "pu" 2 fresh_kernel
  = (Ok {| matches := []; cursor_start := 0; cursor_end := 2 |},
     emit (EvEval [completion_command "pu"]) fresh_kernel).
Proof.
  apply (do_complete_empty_answer
           {| eng_eval := fun _ _ => Returns (PyText EmptyString);
              eng_exists := fun _ _ => 0%Z;
              eng_dir := fun _ => ["put"; "pull"] |}
           "pu" 2 fresh_kernel "u"%char (PyText EmptyString));
    try reflexivity.
  now right.
Defined.

(** X23: a token with a slash in it is completed from the file system and
    Scilab is not asked: the matches are the entries of the token's
    directory that start with its file name, and [cursor_start] is the
    cursor less the length of that file name; a directory that does not
    exist gives the default reply, and a path that is a file makes
    [os.listdir] fail.  The kernel is left as it was. *)
Theorem do_complete_path
  (E : engine) (code : string) (cursor_pos : Z) (k : kernel) (c : ascii) :
  let token := completion_token code cursor_pos in
  char_before_cursor code cursor_pos = Some c ->
  Ascii.eqb c " "%char = false ->
  contains "/" token = true ->
  do_complete E code cursor_pos k
  = (match dirs (fs k) (dirname token) with
     | Some entries =>
         Ok {| matches := filter (startswith (basename token)) entries;
               cursor_start :=
                 (cursor_pos - Z.of_nat (String.length (basename token)))%Z;
               cursor_end := cursor_pos |}
     | None =>
         if path_exists (fs k) (dirname token) then Raise OSError
         else Ok {| matches := []; cursor_start := 0; cursor_end := cursor_pos |}
     end, k).
Proof.
  cbv zeta. intros Hc Hsp Hslash.
  assert (Hne : nonempty (completion_token code cursor_pos) = true).
  { destruct (completion_token code cursor_pos); [discriminate Hslash | reflexivity]. }
  rewrite (do_complete_token E code cursor_pos k c Hc Hsp Hne).
  cbv zeta. rewrite Hslash. unfold path_exists.
  destruct (dirs (fs k) _) as [entries|]; [now destruct (files (fs k) _)|].
  now destruct (files (fs k) _).
Qed.

Lemma do_complete_path_witness :
  let k := set_fs home_fs fresh_kernel in
  do_complete echo_engine "cd /home/u" 10 k
  = (Ok {| matches := ["user"; "upload"]; cursor_start := 9; cursor_end := 10 |}, k).
Proof.
  apply (do_complete_path echo_engine "cd /home/u" 10
           (set_fs home_fs fresh_kernel) "u"%char); reflexivity.
Defined.

(** *** The version probe *)

(** X24: when [language_version] returns, what it returns is a dotted
    number (digits and dots, a digit first and last, one dot at least) that
    stands in the banner right after the word version, a space and a
    double quote, and the banner has been logged and is cached. *)
Theorem language_version_is_dotted_number
  (p : probe) (cache : option string) (k : kernel) (v : string) :
  fst (language_version p cache k) = Ok v ->
  dotted_number v
  /\ exists b pre post,
       b = pre ++ version_prefix ++ v ++ post
       /\ snd (language_version p cache k) = (Some b, emit (EvLog b) k).
Proof.
  unfold language_version, banner.
  destruct cache as [b|].
  - destruct (version_search b) as [v'|] eqn:Hs; [|discriminate].
    cbn [fst snd]. intros [= <-].
    destruct (version_search_spec _ _ Hs) as [Hv (pre & post & Hb)].
    split; [exact Hv|]. now exists b, pre, post.
  - destruct p as [b|b|]; [| |discriminate];
      (destruct (version_search b) as [v'|] eqn:Hs; [|discriminate]);
      cbn [fst snd]; intros [= <-];
      destruct (version_search_spec _ _ Hs) as [Hv (pre & post & Hb)];
      (split; [exact Hv|]); now exists b, pre, post.
Qed.

Lemma language_version_is_dotted_number_witness :
  let b := "Scilab version " ++ String DQUOTE "5.5.2.1427793548"
           ++ String DQUOTE EmptyString in
  fst (language_version (ProbeOutput b) None fresh_kernel) = Ok "5.5.2.1427793548"
  /\ dotted_number "5.5.2.1427793548".
Proof.
  split; [reflexivity|].
  apply (language_version_is_dotted_number
           (ProbeOutput ("Scilab version " ++ String DQUOTE "5.5.2.1427793548"
                         ++ String DQUOTE EmptyString))
           None fresh_kernel "5.5.2.1427793548").
  reflexivity.
Defined.

(** X25: when the banner does not contain the word version followed by a
    space and a double quote, [language_version] fails with AttributeError
    at [m.group(1)]; this is so in particular when the probe ended with
    CalledProcessError and empty output. *)
Theorem language_version_without_version
  (p : probe) (cache : option string) (k : kernel) (b : string) :
  fst (banner p cache) = Ok b ->
  ~ occurs version_prefix b ->
  fst (language_version p cache k) = Raise AttributeError.
Proof.
  intros Hb Hno.
  assert (Hs : version_search b = None).
  { destruct (version_search b) as [v|] eqn:Hs; [|reflexivity].
    destruct (version_search_spec _ _ Hs) as [_ (pre & post & Heq)].
    exfalso. apply Hno. exists pre, (v ++ post). exact Heq. }
  unfold language_version, banner in *.
  destruct cache as [b'|].
  - cbn [fst] in Hb. injection Hb as ->. now rewrite Hs.
  - destruct p as [b'|b'|]; [| |discriminate];
      cbn [fst] in Hb; injection Hb as ->; now rewrite Hs.
Qed.

Lemma language_version_without_version_witness :
  fst (language_version (ProbeCalledProcessError EmptyString) None fresh_kernel)
  = Raise AttributeError.
Proof.
  apply (language_version_without_version
           (ProbeCalledProcessError EmptyString) None fresh_kernel EmptyString).
  - reflexivity.
  - intros (pre & post & H). destruct pre; discriminate.
Defined.

(** X26: the banner is read from the Scilab executable once: after a read
    that succeeded, every later read returns the same text from the cache,
    whatever the executable would print then. *)
Theorem banner_is_cached
  (p p' : probe) (cache : option string) (b : string) :
  fst (banner p cache) = Ok b ->
  banner p' (snd (banner p cache)) = (Ok b, snd (banner p cache)).
Proof.
  unfold banner. destruct cache as [b0|].
  - cbn [fst snd]. now intros [= ->].
  - destruct p as [out|out|]; cbn [fst snd]; [| |discriminate];
      now intros [= ->].
Qed.

Lemma banner_is_cached_witness :
  banner ProbeOSError (snd (banner (ProbeOutput "scilab-5.5.2") None))
  = (Ok "scilab-5.5.2", Some "scilab-5.5.2").
Proof.
  apply (banner_is_cached (ProbeOutput "scilab-5.5.2") ProbeOSError None
           "scilab-5.5.2").
  reflexivity.
Defined.

End Extras.
